(** * rename-pdf.py: title derivation and rename pipeline

    A shallow embedding of [my-tools/ai-file-renamer/rename-pdf.py].

    Python [str] values are sequences of Unicode code points, so they are
    modelled as [list N]; the external collaborators (pdftotext, ocrmypdf,
    the HTTP endpoint) are oracles gathered in an environment record; the
    filesystem is a finite map from paths to file contents; every effect of
    the program (process launches, HTTP posts, sleeps of the retry
    decorator, renames, log records) is appended to a trace. *)

From Stdlib Require Import ZArith NArith List String Ascii Lia Bool.
From stdpp Require Import base option list gmap.

Set Warnings "-register-all".

Local Open Scope N_scope.

(** ** Python strings *)

Module Str.

Abbreviation codepoint := N (only parsing).
Abbreviation pystr := (list N) (only parsing).

(** A literal of the source whose characters are all ASCII. *)
Definition lit (s : string) : pystr :=
  List.map N_of_ascii (list_ascii_of_string s).

(** [str.isspace] on one character, CPython's [_PyUnicode_IsWhitespace]:
    this is the set that [str.strip()] without argument removes. *)
Definition is_space (c : codepoint) : bool :=
  ((9 <=? c) && (c <=? 13)) || ((28 <=? c) && (c <=? 32))
  || (c =? 133) || (c =? 160) || (c =? 5760)
  || ((8192 <=? c) && (c <=? 8202))
  || (c =? 8232) || (c =? 8233) || (c =? 8239) || (c =? 8287)
  || (c =? 12288).

Definition underscore : codepoint := 95.
Definition is_underscore (c : codepoint) : bool := c =? underscore.

Fixpoint drop_while {A} (p : A -> bool) (s : list A) : list A :=
  match s with
  | [] => []
  | c :: t => if p c then drop_while p t else s
  end.

Definition lstrip (p : codepoint -> bool) (s : pystr) : pystr := drop_while p s.
Definition rstrip (p : codepoint -> bool) (s : pystr) : pystr :=
  rev (drop_while p (rev s)).

(** [s.strip(chars)], the class [chars] given as a predicate. *)
Definition strip_chars (p : codepoint -> bool) (s : pystr) : pystr :=
  rstrip p (lstrip p s).

(** [s.strip()] *)
Definition strip (s : pystr) : pystr := strip_chars is_space s.

(** Truth value of a string: [not s] is [is_empty s]. *)
Definition is_empty (s : pystr) : bool :=
  match s with [] => true | _ => false end.

(** [a or b] on strings. *)
Definition py_or (a b : pystr) : pystr := if is_empty a then b else a.

(** [s.startswith(c)] and [s.endswith(c)] for a one-character [c]. *)
Definition starts_with_char (c : codepoint) (s : pystr) : bool :=
  match s with x :: _ => x =? c | [] => false end.
Definition ends_with_char (c : codepoint) (s : pystr) : bool :=
  starts_with_char c (rev s).

(** [s.endswith(suffix)] *)
Fixpoint is_prefix (a s : pystr) : bool :=
  match a, s with
  | [], _ => true
  | x :: a', y :: s' => (x =? y) && is_prefix a' s'
  | _ :: _, [] => false
  end.
Definition endswith (s suffix : pystr) : bool := is_prefix (rev suffix) (rev s).

(** [s.lower()] restricted to the ASCII letters; no character outside
    A-Z lowercases to one of the characters of ['.pdf'], which is the only
    use the program makes of it. *)
Definition lower_char (c : codepoint) : codepoint :=
  if (65 <=? c) && (c <=? 90) then c + 32 else c.
Definition lower (s : pystr) : pystr := List.map lower_char s.

End Str.

Import Str.

(** ** sanitize_filename (lines 63-76) *)

(** The character class of line 72: less-than, greater-than, colon, double
    quote, slash, backslash, vertical bar, question mark, asterisk, and the
    code points 0 to 31. *)
Definition invalid_char (c : N) : bool :=
  (c =? 60) || (c =? 62) || (c =? 58) || (c =? 34) || (c =? 47)
  || (c =? 92) || (c =? 124) || (c =? 63) || (c =? 42) || (c <=? 31).

(** [re.sub] of that class by ['_'] (line 72). *)
Definition sub_invalid (title : list N) : list N :=
  List.map (fun c => if invalid_char c then underscore else c) title.

(** [re.sub(r'_+', '_', s)]: every maximal run of underscores becomes one
    underscore, that is, an underscore followed by an underscore is dropped. *)
Fixpoint sub_underscores (s : list N) : list N :=
  match s with
  | [] => []
  | c :: t =>
      if is_underscore c && starts_with_char underscore t
      then sub_underscores t
      else c :: sub_underscores t
  end.

Definition untitled_pdf : list N := lit "untitled.pdf".

Definition sanitize_filename (title : list N) : list N :=
  let title := strip title in
  if is_empty title then untitled_pdf
  else
    let sanitized := sub_invalid title in
    let sanitized := strip_chars is_underscore (sub_underscores sanitized) in
    py_or (take 150 sanitized) untitled_pdf.

(** ** posixpath: [os.path.dirname], [os.path.basename], [os.path.join] *)

Module Posixpath.

Definition sep : N := 47.
Definition is_sep (c : N) : bool := c =? sep.

(** [s.rfind(c)]: the index of the last occurrence, [-1] when there is none. *)
Fixpoint rfind (c : N) (s : list N) : Z :=
  match s with
  | [] => (-1)%Z
  | x :: t =>
      let r := rfind c t in
      if (0 <=? r)%Z then (r + 1)%Z else if x =? c then 0%Z else (-1)%Z
  end.

(** [i = p.rfind('/') + 1] *)
Definition split_point (p : list N) : nat := Z.to_nat (rfind sep p + 1).

Definition dirname (p : list N) : list N :=
  let head := take (split_point p) p in
  if negb (is_empty head) && negb (forallb is_sep head)
  then rstrip is_sep head
  else head.

Definition basename (p : list N) : list N := drop (split_point p) p.

(** [os.path.join(a, b)] *)
Definition join (a b : list N) : list N :=
  if starts_with_char sep b then b
  else if is_empty a || ends_with_char sep a then a ++ b
  else a ++ [sep] ++ b.

End Posixpath.

(** ** Exceptions, results and the values of a parsed JSON body *)

Inductive exn :=
| AttributeError | TypeError | KeyError | IndexError | ValueError
| OSError | FileNotFoundError | TimeoutExpired | ExitCodeException
| RequestException | RequestsConnectionError | RequestsTimeout
| RetryError.

#[global] Instance exn_eq_dec : EqDecision exn.
Proof. solve_decision. Defined.

(** [isinstance(e, requests.RequestException)] *)
Definition is_RequestException (e : exn) : bool :=
  match e with
  | RequestException | RequestsConnectionError | RequestsTimeout => true
  | _ => false
  end.

Inductive res (A : Type) :=
| Ret (a : A)
| Raise (e : exn).
Arguments Ret {A} a.
Arguments Raise {A} e.

(** What [response.json()] can return. A dict is kept as its list of items;
    a number carries no payload the program could use. *)
Inductive json :=
| JNull
| JBool (b : bool)
| JNum (z : Z)
| JStr (s : list N)
| JList (l : list json)
| JDict (items : list (list N * json)).

Module PyOps.

Fixpoint dict_get (k : list N) (items : list (list N * json)) : option json :=
  match items with
  | [] => None
  | (k', v) :: t => if bool_decide (k' = k) then Some v else dict_get k t
  end.

Fixpoint is_infix (a s : list N) : bool :=
  is_prefix a s || match s with [] => false | _ :: t => is_infix a t end.

(** [key in x] for a string [key] *)
Definition contains (key : list N) (x : json) : res bool :=
  match x with
  | JDict items => Ret (bool_decide (is_Some (dict_get key items)))
  | JList l => Ret (existsb (fun v => match v with JStr s => bool_decide (s = key) | _ => false end) l)
  | JStr s => Ret (is_infix key s)
  | _ => Raise TypeError
  end.

(** [len(x)] *)
Definition len (x : json) : res nat :=
  match x with
  | JDict items => Ret (length items)
  | JList l => Ret (length l)
  | JStr s => Ret (length s)
  | _ => Raise TypeError
  end.

(** [x[key]] for a string [key] *)
Definition getitem_str (x : json) (key : list N) : res json :=
  match x with
  | JDict items =>
      match dict_get key items with Some v => Ret v | None => Raise KeyError end
  | _ => Raise TypeError
  end.

(** [x[0]]; the keys of a parsed JSON object are strings, never [0]. *)
Definition getitem_0 (x : json) : res json :=
  match x with
  | JList (v :: _) => Ret v
  | JList [] => Raise IndexError
  | JStr (c :: _) => Ret (JStr [c])
  | JStr [] => Raise IndexError
  | JDict _ => Raise KeyError
  | _ => Raise TypeError
  end.

(** [x.strip()] *)
Definition strip_method (x : json) : res (list N) :=
  match x with
  | JStr s => Ret (strip s)
  | _ => Raise AttributeError
  end.

End PyOps.

(** ** The world: filesystem and trace of effects *)

Inductive level := INFO | WARNING | ERROR.

(** One constructor per logging call of the program, carrying the values its
    message interpolates. *)
Inductive logrec :=
| PdftotextTimedOut (pdf_path : list N)            (* line 32 *)
| PdftotextNotFound                                (* lines 34, 60 *)
| FallbackToOcr                                    (* line 38 *)
| PdftotextFailedAfterOcr (stderr : list N)        (* line 54 *)
| OcrmypdfFailed (e : exn)                         (* line 56 *)
| PdftotextTimedOutAfterOcr                        (* line 58 *)
| ApiStatus (status_code : Z)                      (* line 110 *)
| ApiResponse (text : list N)                      (* line 111 *)
| ApiParseError (e : exn)                          (* line 121 *)
| NoTextExtracted                                  (* line 132 *)
| NoTitleGenerated (pdf_path : list N)             (* line 137 *)
| DryRunWouldRename (basename new_title : list N)  (* line 140 *)
| RenamedTo (new_path : list N)                    (* line 148 *)
| AlreadyExists (sanitized_title : list N)         (* line 150 *)
| Processing (pdf_path : list N)                   (* line 159 *)
| ErrorProcessing (pdf_path : list N) (e : exn).   (* line 163 *)

Inductive event :=
| EvPdftotext (path : list N)        (* subprocess.run of pdftotext on [path] *)
| EvMkdtemp (dir : list N)           (* entering tempfile.TemporaryDirectory() *)
| EvRmtree (dir : list N)            (* leaving it *)
| EvOcr (input output : list N)      (* ocrmypdf.ocr(input, output, ...) *)
| EvPost (model api_key text : list N)  (* requests.post to the endpoint *)
| EvSleep (seconds : N)              (* the wait of the retry decorator *)
| EvRename (src dst : list N)        (* os.rename(src, dst) *)
| EvLog (lvl : level) (r : logrec).

(** The filesystem maps the path of each existing file to its content. The
    files that the OCR writes into the temporary directory are gone when the
    directory is removed and are not represented. *)
Record world := World {
  fs : gmap (list N) (list N);
  trace : list event
}.

(** [subprocess.CompletedProcess] *)
Record completed := Completed {
  returncode : Z;
  stdout : list N;
  stderr : list N
}.

(** [requests.Response]: [json_body] is what [response.json()] does. *)
Record response := Response {
  status_code : Z;
  text : list N;
  json_body : res json
}.

(** The collaborators. [pdftotext p] is the run of pdftotext on page 1 of
    the file at [p]; [ocr input] is the call of ocrmypdf; [post n] is the
    answer of the endpoint to the request that follows [n] earlier ones;
    [rename_refused src dst] is the error with which the operating system
    refuses [os.rename(src, dst)] for a reason that the map of the files
    does not show (a name too long for the filesystem, missing permissions,
    a read-only directory), [None] when it has none. *)
Record env := Env {
  pdftotext : list N -> res completed;
  tempdir : list N;
  ocr : list N -> res unit;
  post : nat -> list N -> list N -> list N -> res response;
  rename_refused : list N -> list N -> option exn
}.

(** ** The monad of the program: state and exceptions *)

Definition M (A : Type) : Type := world -> res A * world.

Definition ret {A} (a : A) : M A := fun w => (Ret a, w).
Definition raise {A} (e : exn) : M A := fun w => (Raise e, w).
Definition lift {A} (r : res A) : M A := fun w => (r, w).

Definition bind {A B} (m : M A) (k : A -> M B) : M B :=
  fun w =>
    match m w with
    | (Ret a, w') => k a w'
    | (Raise e, w') => (Raise e, w')
    end.

Notation "'let!' x ':=' m 'in' k" := (bind m (fun x => k))
  (at level 10, x name, m at level 100, k at level 200, only parsing).
Notation "'do!' m 'in' k" := (bind m (fun _ => k))
  (at level 10, m at level 100, k at level 200, only parsing).

Definition emit (ev : event) : M unit :=
  fun w => (Ret tt, World (fs w) (trace w ++ [ev])).

Definition log (lvl : level) (r : logrec) : M unit := emit (EvLog lvl r).

(** [try: m except ...]: [h e] is the handler of the first clause that
    matches [e], [None] when no clause does. *)
Definition try_except {A} (m : M A) (h : exn -> option (M A)) : M A :=
  fun w =>
    match m w with
    | (Ret a, w') => (Ret a, w')
    | (Raise e, w') =>
        match h e with
        | Some k => k w'
        | None => (Raise e, w')
        end
    end.

(** [with tempfile.TemporaryDirectory() as temp_dir: body]: the directory is
    removed on every way out of the body. *)
Definition with_tempdir {A} (E : env) (body : list N -> M A) : M A :=
  fun w =>
    match bind (emit (EvMkdtemp (tempdir E))) (fun _ => body (tempdir E)) w with
    | (r, w') => (r, World (fs w') (trace w' ++ [EvRmtree (tempdir E)]))
    end.

(** [subprocess.run(["pdftotext", "-f", "1", "-l", "1", ..., path, "-"], ...)] *)
Definition run_pdftotext (E : env) (path : list N) : M completed :=
  do! emit (EvPdftotext path) in lift (pdftotext E path).

(** [ocrmypdf.ocr(input, output, language='heb+eng', redo_ocr=True)] *)
Definition ocrmypdf_ocr (E : env) (input output : list N) : M unit :=
  do! emit (EvOcr input output) in lift (ocr E input).

Definition is_post (ev : event) : bool :=
  match ev with EvPost _ _ _ => true | _ => false end.

(** [requests.post(url, json=data, headers=headers)] *)
Definition requests_post (E : env) (model api_key full_text : list N) : M response :=
  fun w =>
    let n := length (List.filter is_post (trace w)) in
    bind (emit (EvPost model api_key full_text))
         (fun _ => lift (post E n model api_key full_text)) w.

(** [os.path.exists(p)] *)
Definition os_path_exists (p : list N) : M bool :=
  fun w => (Ret (bool_decide (is_Some (fs w !! p))), w).

(** [os.rename(src, dst)], reached only when [dst] does not exist: it raises
    when the operating system refuses the rename or the source is missing,
    and moves the file otherwise. *)
Definition os_rename (E : env) (src dst : list N) : M unit :=
  fun w =>
    let tr := trace w ++ [EvRename src dst] in
    match rename_refused E src dst with
    | Some e => (Raise e, World (fs w) tr)
    | None =>
        match fs w !! src with
        | Some content => (Ret tt, World (<[dst := content]> (delete src (fs w))) tr)
        | None => (Raise FileNotFoundError, World (fs w) tr)
        end
    end.

(** [ocrmypdf.exceptions.ExitCodeError], which line 55 evaluates when an
    exception reaches the handlers of the fallback: the module
    [ocrmypdf.exceptions] defines [ExitCodeException] and its subclasses and
    has no attribute [ExitCodeError], so the lookup raises. *)
Definition ocrmypdf_exceptions_ExitCodeError : res exn := Raise AttributeError.

(** ** extract_text_from_first_page (lines 16-62) *)

Definition extract_text_from_first_page (E : env) (pdf_path : list N) : M (list N) :=
  (* [Some text]: the function returned [text]; [None]: it goes on *)
  let! first :=
    try_except
      (let! result := run_pdftotext E pdf_path in
       if (returncode result =? 0)%Z then
         let text := strip (stdout result) in
         if (50 <=? length text)%nat then ret (Some text) else ret None
       else ret None)
      (fun e =>
         match e with
         | TimeoutExpired =>
             Some (do! log WARNING (PdftotextTimedOut pdf_path) in ret None)
         | FileNotFoundError =>
             Some (do! log ERROR PdftotextNotFound in ret (Some []))
         | _ => None
         end) in
  match first with
  | Some text => ret text
  | None =>
      do! log INFO FallbackToOcr in
      let! second :=
        try_except
          (with_tempdir E (fun temp_dir =>
             let temp_pdf := Posixpath.join temp_dir (lit "ocr_output.pdf") in
             do! ocrmypdf_ocr E pdf_path temp_pdf in
             let! text_result := run_pdftotext E temp_pdf in
             if (returncode text_result =? 0)%Z then
               let text := strip (stdout text_result) in
               ret (Some text)
             else
               do! log ERROR (PdftotextFailedAfterOcr (stderr text_result)) in
               ret None))
          (fun e =>
             (* the clauses are tried in turn, and the first one starts by
                evaluating the class that it names *)
             Some (let! ExitCodeError := lift ocrmypdf_exceptions_ExitCodeError in
                   if bool_decide (e = ExitCodeError) then
                     do! log ERROR (OcrmypdfFailed e) in ret None
                   else
                     match e with
                     | TimeoutExpired =>
                         do! log WARNING PdftotextTimedOutAfterOcr in ret None
                     | FileNotFoundError =>
                         do! log ERROR PdftotextNotFound in ret None
                     | _ => raise e
                     end)) in
      match second with
      | Some text => ret text
      | None => ret []
      end
  end.

(** ** generate_title_with_gemini (lines 79-122) *)

(** The fixed instruction prompt (lines 86-100); code point 8212 is the em
    dash of the source text. *)
Definition prompt : list N :=
    (lit "You are tasked to suggest a filename for a PDF document. The provided text is EXTRACTED FROM THE FIRST PAGE ONLY" ++ [8212] ++ lit "it may be incomplete, OCR-generated (possibly with errors), or insufficient to fully represent the document. ") ++
    (lit "Your goal: Propose a concise, descriptive title as the filename in the document's ORIGINAL LANGUAGE. Make it filename-safe (no special characters, spaces allowed if simple). Keep under 80 characters. ") ++
    (lit "Respond ONLY with the filename text" ++ [8212] ++ lit "NO explanations, NO prefixes/suffixes like 'Title:', NO markdown, NO additional text. Just the clean filename. ") ++
    (lit "Guidelines: ") ++
    (lit "- If text is gibberish, unclear, too brief (<20 characters), or insufficient to suggest a meaningful filename, respond ONLY with 'Insufficient-Content'. ") ++
    (lit "- For research or academic papers: Use 'Author1&Author2-Year-HumanTitle' format (e.g., 'Smith&Dong-2023-NeuralNets'). Use 'et al.' for 3+ authors. ") ++
    (lit "- For other documents (invoices, legal, bank reports, pensions, court decisions): Use structured, key-based titles. Examples: ") ++
    (lit "  - Invoices: 'ACME-Invoice-123-Dec2023' (good); 'This is an invoice for payment received from customer x on date y' (bad" ++ [8212] ++ lit "too verbose). ") ++
    (lit "  - Legal Documents: 'Agreement-Smith-Vs-Jones-2023' (good); 'Long legal agreement between parties A and B dated some time ago without specifics' (bad). ") ++
    (lit "  - Bank Reports: 'Bank-Statement-HSBC-Nov2023' (good); 'Monthly bank report showing transactions for the past 30 days including all fees and interest' (bad). ") ++
    (lit "  - Pensions Yearly Reports: 'Pension-Report-2023-National' (good); 'Detailed yearly pension summary for retirement fund with charts and projections for future benefits' (bad). ") ++
    (lit "  - Court Decisions: 'Court-Ruling-Case-456-2023' (good); 'The court has decided on this legal matter after consideration of all evidence presented by both sides in a complicated case' (bad). ") ++
    (lit "Analyze the text below and output ONLY the filename.").
(** The body of the function, one attempt of the decorated call. *)
Definition generate_title_body (E : env) (pdf_text api_key model : list N) : M (list N) :=
  let full_text := prompt ++ [10] ++ pdf_text in
  let! response := requests_post E model api_key full_text in
  if negb (status_code response =? 200)%Z then
    do! log ERROR (ApiStatus (status_code response)) in
    do! log ERROR (ApiResponse (text response)) in
    ret []
  else
    try_except
      (let! response_data := lift (json_body response) in
       let! has_candidates := lift (PyOps.contains (lit "candidates") response_data) in
       let! nonempty :=
         if has_candidates then
           let! candidates := lift (PyOps.getitem_str response_data (lit "candidates")) in
           let! n := lift (PyOps.len candidates) in
           ret (0 <? n)%nat
         else ret false in
       if nonempty then
         let! candidates := lift (PyOps.getitem_str response_data (lit "candidates")) in
         let! candidate := lift (PyOps.getitem_0 candidates) in
         let! content := lift (PyOps.getitem_str candidate (lit "content")) in
         let! parts := lift (PyOps.getitem_str content (lit "parts")) in
         let! part := lift (PyOps.getitem_0 parts) in
         let! text_content := lift (PyOps.getitem_str part (lit "text")) in
         lift (PyOps.strip_method text_content)
       else ret [])
      (fun e => Some (do! log ERROR (ApiParseError e) in ret [])).

(** tenacity's [wait_exponential(multiplier, min, max)] after attempt
    number [attempt_number]. *)
Definition wait_exponential (multiplier min max : N) (attempt_number : nat) : N :=
  N.max (N.max 0 min) (N.min (multiplier * 2 ^ N.of_nat (attempt_number - 1)) max).

(** tenacity's [stop_after_attempt(max_attempt_number)] *)
Definition stop_after_attempt (max_attempt_number attempt_number : nat) : bool :=
  (max_attempt_number <=? attempt_number)%nat.

(** tenacity's [@retry(stop, wait, retry)] around [f] with the default
    [reraise=False]: an exception the [retry] predicate rejects is raised
    as it is; one it accepts is retried after the wait, and when [stop]
    holds [RetryError] is raised in its place. [budget] bounds the number
    of further attempts and is never exhausted before [stop] holds when it
    starts at the maximum attempt number. *)
Fixpoint retry_from {A} (stop : nat -> bool) (wait : nat -> N)
    (retry_if : exn -> bool) (f : M A) (budget attempt_number : nat) : M A :=
  fun w =>
    match f w with
    | (Ret a, w') => (Ret a, w')
    | (Raise e, w') =>
        if retry_if e then
          if stop attempt_number then (Raise RetryError, w')
          else
            match budget with
            | O => (Raise RetryError, w')
            | S budget' =>
                bind (emit (EvSleep (wait attempt_number)))
                     (fun _ => retry_from stop wait retry_if f budget' (S attempt_number)) w'
            end
        else (Raise e, w')
    end.

Definition generate_title_with_gemini (E : env) (pdf_text api_key model : list N) : M (list N) :=
  retry_from (stop_after_attempt 3) (wait_exponential 1 4 10) is_RequestException
    (generate_title_body E pdf_text api_key model) 3 1.

(** ** rename_pdf (lines 125-150) *)

(** Lines 143-144. *)
Definition sanitized_title_of (new_title : list N) : list N :=
  sanitize_filename new_title ++ lit ".pdf".
Definition new_path_of (pdf_path new_title : list N) : list N :=
  Posixpath.join (Posixpath.dirname pdf_path) (sanitized_title_of new_title).

Definition rename_pdf (E : env) (pdf_path api_key : list N) (dry_run : bool)
    (model : list N) : M unit :=
  let! pdf_text := extract_text_from_first_page E pdf_path in
  if is_empty pdf_text then log WARNING NoTextExtracted
  else
    let! new_title := generate_title_with_gemini E pdf_text api_key model in
    if is_empty new_title then log WARNING (NoTitleGenerated pdf_path)
    else if dry_run then
      log INFO (DryRunWouldRename (Posixpath.basename pdf_path) new_title)
    else
      let sanitized_title := sanitized_title_of new_title in
      let new_path := new_path_of pdf_path new_title in
      let! present := os_path_exists new_path in
      if negb present then
        do! os_rename E pdf_path new_path in
        log INFO (RenamedTo new_path)
      else log WARNING (AlreadyExists sanitized_title).

(** ** rename_pdfs_in_directory (lines 153-163) *)

(** The values the name [filename] can be bound to. *)
Inductive pyval :=
| PyStr (s : list N)
| PyFunction (qualname : string).

(** [from fileinput import filename] (line 1): the only binding of the name
    [filename] that the body of [rename_pdfs_in_directory] sees; the body has
    no loop that would bind it to a directory entry. *)
Definition filename : pyval := PyFunction "fileinput.filename".

(** [v.lower()] *)
Definition lower_method (v : pyval) : res (list N) :=
  match v with
  | PyStr s => Ret (lower s)
  | PyFunction _ => Raise AttributeError
  end.

(** [os.path.join(a, v)] *)
Definition os_path_join (a : list N) (v : pyval) : res (list N) :=
  match v with
  | PyStr s => Ret (Posixpath.join a s)
  | PyFunction _ => Raise TypeError
  end.

Definition rename_pdfs_in_directory (E : env) (directory_path api_key : list N)
    (dry_run : bool) (model : list N) : M unit :=
  let! lowered := lift (lower_method filename) in
  if endswith lowered (lit ".pdf") then
    let! pdf_path := lift (os_path_join directory_path filename) in
    do! log INFO (Processing pdf_path) in
    try_except
      (rename_pdf E pdf_path api_key dry_run model)
      (fun e => Some (log ERROR (ErrorProcessing pdf_path e)))
  else ret tt.

(** * Vocabulary of the statements *)

(** No forbidden character occurs in [s]. *)
Definition clean (s : list N) : Prop := Forall (fun c => invalid_char c = false) s.

(** No underscore of [s] is followed by an underscore. *)
Fixpoint single_underscores (s : list N) : bool :=
  match s with
  | [] => true
  | c :: t => negb (is_underscore c && starts_with_char underscore t) && single_underscores t
  end.

(** The text at [candidates[0].content.parts[0].text] of a response body,
    when every one of these fields is there and the text is a string. *)
Definition candidates_text (body : json) : option (list N) :=
  match body with
  | JDict items =>
    match PyOps.dict_get (lit "candidates") items with
    | Some (JList (JDict candidate :: _)) =>
      match PyOps.dict_get (lit "content") candidate with
      | Some (JDict content) =>
        match PyOps.dict_get (lit "parts") content with
        | Some (JList (JDict part :: _)) =>
          match PyOps.dict_get (lit "text") part with
          | Some (JStr s) => Some s
          | _ => None
          end
        | _ => None
        end
      | _ => None
      end
    | _ => None
    end
  | _ => None
  end.

(** A response whose body cannot be parsed or lacks the expected fields. *)
Definition malformed (r : response) : Prop :=
  match json_body r with
  | Raise _ => True
  | Ret body => candidates_text body = None
  end.

(** The events that change the filesystem or report a change of it. *)
Definition is_mutation (ev : event) : bool :=
  match ev with
  | EvRename _ _ => true
  | EvLog _ (RenamedTo _) => true
  | _ => false
  end.

Definition is_ocr (ev : event) : bool :=
  match ev with EvOcr _ _ => true | _ => false end.

Definition is_log (ev : event) : bool :=
  match ev with EvLog _ _ => true | _ => false end.

(** The number of requests sent so far. *)
Definition posts_so_far (w : world) : nat := length (List.filter is_post (trace w)).

(** [m] leaves the files alone: it only appends events to the trace, none of
    them a mutation. *)
Definition frame {A} (m : M A) : Prop :=
  forall w, fs (snd (m w)) = fs w /\
    exists tr, trace (snd (m w)) = trace w ++ tr /\ forallb (fun ev => negb (is_mutation ev)) tr = true.

(** What the fallback of the text acquisition adds to the trace before it
    calls the OCR. *)
Definition ocr_prefix (E : env) (pdf_path : list N) : list event :=
  [EvPdftotext pdf_path; EvLog INFO FallbackToOcr; EvMkdtemp (tempdir E)].


(** * Concrete documents, services and worlds *)

Module Examples.

Definition doc_path : list N := lit "/docs/scan.pdf".
Definition api_key : list N := lit "key".
Definition model : list N := lit "gemini-1.5-flash".

(** 62 characters of page text. *)
Definition page_text : list N :=
  lit "Smith and Dong 2023 paper on neural network pruning techniques".

Definition temp_dir : list N := lit "/tmp/tmpk3w9".
Definition temp_pdf : list N := lit "/tmp/tmpk3w9/ocr_output.pdf".

(** A body with [s] at [candidates[0].content.parts[0].text]. *)
Definition body_with (s : list N) : json :=
  JDict [(lit "candidates",
    JList [JDict [(lit "content",
      JDict [(lit "parts", JList [JDict [(lit "text", JStr s)]])])]])].

Definition ok_response (s : list N) : response :=
  Response 200 s (Ret (body_with s)).

(** pdftotext finds the page text in every file. *)
Definition digital : list N -> res completed :=
  fun _ => Ret (Completed 0 page_text []).

(** pdftotext finds nothing in the document, and the page text in the
    output of the OCR. *)
Definition scanned : list N -> res completed :=
  fun path =>
    if bool_decide (path = temp_pdf) then Ret (Completed 0 page_text [])
    else Ret (Completed 0 [] []).

(** The operating system refuses no rename. *)
Definition accepts : list N -> list N -> option exn := fun _ _ => None.

(** The service answers every request with the title [s]. *)
Definition E_title (s : list N) : env :=
  Env digital temp_dir (fun _ => Ret tt) (fun _ _ _ _ => Ret (ok_response s))
      accepts.

Definition E_scanned (s : list N) : env :=
  Env scanned temp_dir (fun _ => Ret tt) (fun _ _ _ _ => Ret (ok_response s))
      accepts.

(** Every request fails with a connection error. *)
Definition E_down : env :=
  Env digital temp_dir (fun _ => Ret tt) (fun _ _ _ _ => Raise RequestsConnectionError)
      accepts.

(** The service answers every request with the status [code]. *)
Definition E_status (code : Z) : env :=
  Env digital temp_dir (fun _ => Ret tt)
      (fun _ _ _ _ => Ret (Response code (lit "error") (Raise ValueError)))
      accepts.

(** A directory that holds the document alone. *)
Definition w_docs : world := World {[ doc_path := lit "%PDF-1.7" ]} [].

(** The same directory once a file named after the title is there too. *)
Definition w_taken : world :=
  World (<[ lit "/docs/Smith&Dong-2023-NeuralNets.pdf" := lit "%PDF-1.4" ]> (fs w_docs)) [].

(** A directory whose document already has the name the service proposes. *)
Definition named_path : list N := lit "/docs/Smith&Dong-2023-NeuralNets.pdf".
Definition w_named : world := World {[ named_path := lit "%PDF-1.7" ]} [].

(** The worlds of a run on [doc] after the text acquisition and after the
    title generation, when pdftotext finds the page text and the service
    answers at once. *)
Definition request : event := EvPost model api_key (prompt ++ [10] ++ page_text).
Definition after_extract (doc : list N) (w : world) : world :=
  World (fs w) (trace w ++ [EvPdftotext doc]).
Definition after_generate (doc : list N) (w : world) : world :=
  World (fs w) (trace w ++ [EvPdftotext doc; request]).

End Examples.

(** * Further vocabulary *)

(** ** Classes of events *)

(** The records that the text acquisition, the generator and rename_pdf
    itself log. *)
Definition acquisition_log (r : logrec) : bool :=
  match r with
  | PdftotextTimedOut _ | PdftotextNotFound | FallbackToOcr
  | PdftotextFailedAfterOcr _ | OcrmypdfFailed _ | PdftotextTimedOutAfterOcr => true
  | _ => false
  end.

Definition generation_log (r : logrec) : bool :=
  match r with
  | ApiStatus _ | ApiResponse _ | ApiParseError _ => true
  | _ => false
  end.

Definition outcome_log (r : logrec) : bool :=
  match r with
  | NoTextExtracted | NoTitleGenerated _ | DryRunWouldRename _ _
  | RenamedTo _ | AlreadyExists _ => true
  | _ => false
  end.

Definition acquisition_event (ev : event) : bool :=
  match ev with
  | EvPdftotext _ | EvMkdtemp _ | EvRmtree _ | EvOcr _ _ => true
  | EvLog _ r => acquisition_log r
  | _ => false
  end.

Definition generation_event (ev : event) : bool :=
  match ev with
  | EvPost _ _ _ | EvSleep _ => true
  | EvLog _ r => generation_log r
  | _ => false
  end.

Definition is_outcome (ev : event) : bool :=
  match ev with EvLog _ r => outcome_log r | _ => false end.

Definition is_sleep (ev : event) : bool :=
  match ev with EvSleep _ => true | _ => false end.

Definition is_tempdir (ev : event) : bool :=
  match ev with EvMkdtemp _ | EvRmtree _ => true | _ => false end.

(** [m] keeps the files and appends only events of the class [P]. *)
Definition only_emits {A} (P : event -> bool) (m : M A) : Prop :=
  forall w, fs (snd (m w)) = fs w /\
    exists tr, trace (snd (m w)) = trace w ++ tr /\ forallb P tr = true.



(** The requests and sleeps of a call whose request [P] fails [k] times
    with a transport error and is answered the next time. *)
Definition attempts (P : event) (k : nat) : list event :=
  concat (repeat [P; EvSleep 4] k) ++ [P].

(** A title that the sanitizer has nothing to do on. *)
Definition well_formed_title (t : list N) : Prop :=
  t <> [] /\ (length t <= 150)%nat /\ clean t /\ single_underscores t = true /\
  strip t = t /\ starts_with_char underscore t = false /\
  ends_with_char underscore t = false.

(** ** Further services and documents *)

Module MoreExamples.
Import Examples.

(** pdftotext is not installed. *)
Definition E_no_tool : env :=
  Env (fun _ => Raise FileNotFoundError) temp_dir (fun _ => Ret tt)
      (fun _ _ _ _ => Ret (ok_response (lit "Report")))
      accepts.

(** pdftotext times out on the document and works on the output of the OCR. *)
Definition E_slow : env :=
  Env (fun path => if bool_decide (path = temp_pdf) then Ret (Completed 0 page_text [])
                   else Raise TimeoutExpired)
      temp_dir (fun _ => Ret tt) (fun _ _ _ _ => Ret (ok_response (lit "Report")))
      accepts.




(** No text anywhere. *)
Definition E_blank : env :=
  Env (fun _ => Ret (Completed 0 [] [])) temp_dir (fun _ => Ret tt)
      (fun _ _ _ _ => Ret (ok_response (lit "Report")))
      accepts.

(** The first request fails, the next ones are answered with [s]. *)
Definition E_flaky (s : list N) : env :=
  Env digital temp_dir (fun _ => Ret tt)
      (fun n _ _ _ => if (n <? 1)%nat then Raise RequestsConnectionError
                      else Ret (ok_response s))
      accepts.

(** The request fails with an exception that is no [RequestException]. *)
Definition E_crash : env :=
  Env digital temp_dir (fun _ => Ret tt) (fun _ _ _ _ => Raise TypeError)
      accepts.


(** The directory of the document is read-only: every rename is refused. *)
Definition E_read_only : env :=
  Env digital temp_dir (fun _ => Ret tt) (fun _ _ _ _ => Ret (ok_response (lit "Report")))
      (fun _ _ => Some OSError).

(** The first request fails, the next ones are answered with the status
    [code]. *)
Definition E_flaky_status (code : Z) : env :=
  Env digital temp_dir (fun _ => Ret tt)
      (fun n _ _ _ => if (n <? 1)%nat then Raise RequestsConnectionError
                      else Ret (Response code (lit "error") (Raise ValueError)))
      accepts.

End MoreExamples.

(** * Properties *)

(** ** The model on concrete inputs *)

Example sanitize_plain :
  sanitize_filename (lit "Smith&Dong-2023-NeuralNets") = lit "Smith&Dong-2023-NeuralNets".
Proof. reflexivity. Qed.

Example sanitize_reserved :
  sanitize_filename (lit "  a<b>:c??d  ") = lit "a_b_c_d".
Proof. reflexivity. Qed.

Example sanitize_blank : sanitize_filename (lit "   ") = lit "untitled.pdf".
Proof. reflexivity. Qed.

Example sanitize_long :
  sanitize_filename (repeat 97 200) = repeat 97 150.
Proof. vm_compute. reflexivity. Qed.

Example sanitize_cut_leaves_underscore :
  sanitize_filename (repeat 97 149 ++ lit "_b") = repeat 97 149 ++ lit "_".
Proof. vm_compute. reflexivity. Qed.

Example dirname_examples :
  Posixpath.dirname (lit "/docs/scan.pdf") = lit "/docs" /\
  Posixpath.dirname (lit "scan.pdf") = [] /\
  Posixpath.dirname (lit "/scan.pdf") = lit "/" /\
  Posixpath.dirname (lit "/a//b//c.pdf") = lit "/a//b" /\
  Posixpath.basename (lit "/a//b//c.pdf") = lit "c.pdf" /\
  Posixpath.join (lit "/docs") (lit "x.pdf") = lit "/docs/x.pdf" /\
  Posixpath.join (lit "/") (lit "x.pdf") = lit "/x.pdf" /\
  Posixpath.join [] (lit "x.pdf") = lit "x.pdf".
Proof. repeat split; reflexivity. Qed.

Example wait_exponential_values :
  List.map (wait_exponential 1 4 10) [1; 2; 3; 4; 5; 6]%nat = [4; 4; 4; 8; 10; 10].
Proof. reflexivity. Qed.

(** The scenario of a digital document and a free destination. *)
Example run_renames :
  rename_pdf (Examples.E_title (lit "Smith&Dong-2023-NeuralNets")) Examples.doc_path
    Examples.api_key false Examples.model Examples.w_docs =
  (Ret tt,
   World {[ lit "/docs/Smith&Dong-2023-NeuralNets.pdf" := lit "%PDF-1.7" ]}
     [EvPdftotext Examples.doc_path; Examples.request;
      EvRename Examples.doc_path (lit "/docs/Smith&Dong-2023-NeuralNets.pdf");
      EvLog INFO (RenamedTo (lit "/docs/Smith&Dong-2023-NeuralNets.pdf"))]).
Proof. vm_compute. reflexivity. Qed.

(** The scenario of a scanned document: the text comes from the OCR. *)
Example run_scanned :
  trace (snd (rename_pdf (Examples.E_scanned (lit "Report")) Examples.doc_path
                Examples.api_key true Examples.model Examples.w_docs)) =
  [EvPdftotext Examples.doc_path; EvLog INFO FallbackToOcr; EvMkdtemp Examples.temp_dir;
   EvOcr Examples.doc_path Examples.temp_pdf; EvPdftotext Examples.temp_pdf;
   EvRmtree Examples.temp_dir; Examples.request;
   EvLog INFO (DryRunWouldRename (lit "scan.pdf") (lit "Report"))].
Proof. vm_compute. reflexivity. Qed.

(** A service that is down for the first two requests only. *)
Example run_recovers :
  generate_title_with_gemini
    (Env Examples.digital Examples.temp_dir (fun _ => Ret tt)
       (fun n _ _ _ => if (n <? 2)%nat then Raise RequestsTimeout
                       else Ret (Examples.ok_response (lit " Report ")))
       Examples.accepts)
    Examples.page_text Examples.api_key Examples.model Examples.w_docs =
  (Ret (lit "Report"),
   World (fs Examples.w_docs)
     [Examples.request; EvSleep 4; Examples.request; EvSleep 4; Examples.request]).
Proof. vm_compute. reflexivity. Qed.

(** ** Lists: [drop_while], the strips and prefixes *)

Section Strips.
Context {A : Type} (p : A -> bool).

Lemma drop_while_split (s : list A) :
  exists pre, s = pre ++ drop_while p s /\ forallb p pre = true.
Proof.
  induction s as [|c t [pre [Ht Hp]]]; simpl.
  - exists []. split; reflexivity.
  - destruct (p c) eqn:Hc.
    + exists (c :: pre). simpl. rewrite Hc, Hp. split; [f_equal; exact Ht | reflexivity].
    + exists []. split; reflexivity.
Qed.

Lemma length_drop_while (s : list A) :
  (length (drop_while p s) <= length s)%nat.
Proof.
  destruct (drop_while_split s) as [pre [Hs _]].
  rewrite Hs at 2. rewrite length_app. lia.
Qed.

Lemma drop_while_same_length (s : list A) :
  length (drop_while p s) = length s -> drop_while p s = s.
Proof.
  destruct s as [|c t]; simpl; [reflexivity|].
  destruct (p c); [|reflexivity].
  intros H. pose proof (length_drop_while t). lia.
Qed.

Lemma drop_while_head (s : list A) :
  match drop_while p s with [] => True | c :: _ => p c = false end.
Proof.
  induction s as [|c t IH]; simpl; [exact I|].
  destruct (p c) eqn:Hc; [exact IH | exact Hc].
Qed.

Lemma drop_while_fixed (s : list A) :
  drop_while p s = s -> match s with [] => True | c :: _ => p c = false end.
Proof. intros H. rewrite <- H. apply drop_while_head. Qed.

Lemma drop_while_id (s : list A) :
  match s with [] => True | c :: _ => p c = false end -> drop_while p s = s.
Proof. destruct s as [|c t]; simpl; [reflexivity|]. intros ->. reflexivity. Qed.

End Strips.

Lemma rstrip_split (p : N -> bool) (s : list N) :
  exists suf, s = rstrip p s ++ suf /\ forallb p suf = true.
Proof.
  unfold rstrip. destruct (drop_while_split p (rev s)) as [pre [Hs Hp]].
  exists (rev pre). split.
  - rewrite <- rev_app_distr, <- Hs, rev_involutive. reflexivity.
  - rewrite forallb_forall in *. intros x Hx. apply Hp, in_rev, Hx.
Qed.

Lemma strip_chars_split (p : N -> bool) (s : list N) :
  exists pre suf, s = pre ++ strip_chars p s ++ suf.
Proof.
  unfold strip_chars, lstrip.
  destruct (drop_while_split p s) as [pre [Hs _]].
  destruct (rstrip_split p (drop_while p s)) as [suf [Hd _]].
  exists pre, suf. rewrite <- Hd. exact Hs.
Qed.

Lemma length_strip_chars (p : N -> bool) (s : list N) :
  (length (strip_chars p s) <= length s)%nat.
Proof.
  destruct (strip_chars_split p s) as [pre [suf Hs]].
  rewrite Hs at 2. rewrite !length_app. lia.
Qed.

Lemma strip_chars_same_length (p : N -> bool) (s : list N) :
  length (strip_chars p s) = length s -> strip_chars p s = s.
Proof.
  intros H. destruct (strip_chars_split p s) as [pre [suf Hs]].
  assert (Hl : length s = (length pre + (length (strip_chars p s) + length suf))%nat).
  { rewrite Hs at 1. rewrite !length_app. reflexivity. }
  destruct pre; [|simpl in Hl; lia]. destruct suf; [|simpl in Hl; lia].
  rewrite Hs at 2. simpl. rewrite app_nil_r. reflexivity.
Qed.

Lemma Forall_strip_chars (P : N -> Prop) (p : N -> bool) (s : list N) :
  Forall P s -> Forall P (strip_chars p s).
Proof.
  intros H. destruct (strip_chars_split p s) as [pre [suf Hs]].
  rewrite Hs in H. apply Forall_app in H as [_ H]. apply Forall_app in H as [H _].
  exact H.
Qed.

Lemma starts_with_char_app (c : N) (a b : list N) :
  starts_with_char c a = true -> starts_with_char c (a ++ b) = true.
Proof. destruct a; simpl; [discriminate | trivial]. Qed.

Lemma lstrip_not_starting (s : list N) :
  starts_with_char underscore (lstrip is_underscore s) = false.
Proof.
  unfold lstrip. pose proof (drop_while_head is_underscore s) as H.
  destruct (drop_while is_underscore s); simpl; [reflexivity | exact H].
Qed.

Lemma strip_chars_not_starting (s : list N) :
  starts_with_char underscore (strip_chars is_underscore s) = false.
Proof.
  unfold strip_chars.
  destruct (rstrip_split is_underscore (lstrip is_underscore s)) as [suf [Hs _]].
  destruct (starts_with_char underscore (rstrip is_underscore (lstrip is_underscore s))) eqn:H;
    [|reflexivity].
  apply (starts_with_char_app _ _ suf) in H. rewrite <- Hs in H.
  rewrite lstrip_not_starting in H. discriminate.
Qed.

(** A string that neither starts nor ends with a character of the class is
    left alone by [strip_chars], and conversely. *)
Lemma strip_chars_id (p : N -> bool) (s : list N) :
  match s with [] => True | c :: _ => p c = false end ->
  match rev s with [] => True | c :: _ => p c = false end ->
  strip_chars p s = s.
Proof.
  intros Hh Ht. unfold strip_chars, lstrip, rstrip.
  rewrite (drop_while_id p s Hh), (drop_while_id p (rev s) Ht).
  apply rev_involutive.
Qed.

Lemma strip_chars_fixed (p : N -> bool) (s : list N) :
  strip_chars p s = s ->
  match s with [] => True | c :: _ => p c = false end /\
  match rev s with [] => True | c :: _ => p c = false end.
Proof.
  intros H. unfold strip_chars, lstrip, rstrip in H.
  assert (Hl : drop_while p s = s).
  { apply drop_while_same_length. apply Nat.le_antisymm; [apply length_drop_while|].
    rewrite <- H at 1. rewrite length_rev.
    etransitivity; [apply length_drop_while|]. rewrite length_rev. reflexivity. }
  rewrite Hl in H. split.
  - apply drop_while_fixed, Hl.
  - apply drop_while_fixed. rewrite <- H at 2. rewrite rev_involutive. reflexivity.
Qed.

(** ** The sanitizer *)

Lemma invalid_char_underscore : invalid_char underscore = false.
Proof. reflexivity. Qed.

Lemma sub_invalid_clean (s : list N) : clean (sub_invalid s).
Proof.
  unfold clean, sub_invalid. induction s as [|x t IH]; simpl; constructor; [|exact IH].
  destruct (invalid_char x) eqn:Hx; [apply invalid_char_underscore | exact Hx].
Qed.

Lemma sub_invalid_id (s : list N) : clean s -> sub_invalid s = s.
Proof.
  unfold clean, sub_invalid. induction 1 as [|c t Hc _ IH]; simpl; [reflexivity|].
  rewrite Hc. f_equal. exact IH.
Qed.

Lemma length_sub_invalid (s : list N) : length (sub_invalid s) = length s.
Proof. apply length_map. Qed.

Lemma sub_underscores_clean (s : list N) : clean s -> clean (sub_underscores s).
Proof.
  unfold clean. induction 1 as [|c t Hc _ IH]; simpl; [constructor|].
  destruct (is_underscore c && starts_with_char underscore t); [exact IH|].
  constructor; assumption.
Qed.

Lemma length_sub_underscores (s : list N) :
  (length (sub_underscores s) <= length s)%nat.
Proof.
  induction s as [|c t IH]; simpl; [lia|].
  destruct (is_underscore c && starts_with_char underscore t); simpl; lia.
Qed.

Lemma sub_underscores_same_length (s : list N) :
  length (sub_underscores s) = length s -> sub_underscores s = s.
Proof.
  induction s as [|c t IH]; simpl; [reflexivity|].
  pose proof (length_sub_underscores t).
  destruct (is_underscore c && starts_with_char underscore t); simpl; intros H'.
  - lia.
  - f_equal. apply IH. lia.
Qed.

Lemma sub_underscores_head (s : list N) :
  starts_with_char underscore (sub_underscores s) = starts_with_char underscore s.
Proof.
  induction s as [|c t IH]; simpl; [reflexivity|].
  destruct (is_underscore c && starts_with_char underscore t) eqn:H; [|reflexivity].
  apply andb_true_iff in H as [Hc Ht]. rewrite IH, Ht. symmetry. exact Hc.
Qed.

Lemma sub_underscores_single (s : list N) :
  single_underscores (sub_underscores s) = true.
Proof.
  induction s as [|c t IH]; simpl; [reflexivity|].
  destruct (is_underscore c && starts_with_char underscore t) eqn:H; [exact IH|].
  simpl. rewrite sub_underscores_head, H, IH. reflexivity.
Qed.

Lemma sub_underscores_id (s : list N) :
  single_underscores s = true -> sub_underscores s = s.
Proof.
  induction s as [|c t IH]; simpl; [reflexivity|].
  intros H. apply andb_true_iff in H as [H1 H2]. apply negb_true_iff in H1.
  rewrite H1. f_equal. apply IH, H2.
Qed.

Lemma single_underscores_app_r (a b : list N) :
  single_underscores (a ++ b) = true -> single_underscores b = true.
Proof.
  induction a as [|c t IH]; simpl; [trivial|].
  intros H. apply andb_true_iff in H as [_ H]. apply IH, H.
Qed.

Lemma single_underscores_app_l (a b : list N) :
  single_underscores (a ++ b) = true -> single_underscores a = true.
Proof.
  induction a as [|c t IH]; simpl; [reflexivity|].
  intros H. apply andb_true_iff in H as [H1 H2]. rewrite (IH H2), andb_true_r.
  apply negb_true_iff. apply negb_true_iff in H1.
  destruct (is_underscore c); [|reflexivity]. simpl in *.
  destruct (starts_with_char underscore t) eqn:Ht; [|reflexivity].
  rewrite (starts_with_char_app _ _ b Ht) in H1. discriminate.
Qed.

Lemma single_underscores_strip_chars (p : N -> bool) (s : list N) :
  single_underscores s = true -> single_underscores (strip_chars p s) = true.
Proof.
  intros H. destruct (strip_chars_split p s) as [pre [suf Hs]]. rewrite Hs in H.
  apply single_underscores_app_r, single_underscores_app_l in H. exact H.
Qed.

Lemma single_underscores_take (n : nat) (s : list N) :
  single_underscores s = true -> single_underscores (take n s) = true.
Proof.
  intros H. rewrite <- (take_drop n s) in H.
  apply single_underscores_app_l in H. exact H.
Qed.

Lemma starts_with_char_take (c : N) (n : nat) (s : list N) :
  starts_with_char c s = false -> starts_with_char c (take n s) = false.
Proof.
  intros H. destruct (starts_with_char c (take n s)) eqn:Ht; [|reflexivity].
  apply (starts_with_char_app _ _ (drop n s)) in Ht. rewrite take_drop in Ht. congruence.
Qed.

(** The steps of lines 72-76 on an already trimmed, non-empty title. *)
Lemma sanitize_filename_steps (title : list N) :
  strip title <> [] ->
  sanitize_filename title =
    py_or (take 150 (strip_chars is_underscore (sub_underscores (sub_invalid (strip title)))))
          untitled_pdf.
Proof.
  intros H. unfold sanitize_filename. destruct (strip title); [contradiction | reflexivity].
Qed.

Lemma sanitize_filename_cases (title : list N) :
  sanitize_filename title = untitled_pdf \/
  (strip title <> [] /\
   sanitize_filename title =
     take 150 (strip_chars is_underscore (sub_underscores (sub_invalid (strip title)))) /\
   sanitize_filename title <> []).
Proof.
  destruct (strip title) eqn:Hs.
  - left. unfold sanitize_filename. rewrite Hs. reflexivity.
  - assert (Hne : strip title <> []) by (rewrite Hs; discriminate).
    rewrite (sanitize_filename_steps _ Hne). rewrite Hs. unfold py_or.
    destruct (take 150 _) eqn:Ht; simpl; [left; reflexivity | right].
    repeat split; discriminate.
Qed.

Lemma sanitize_filename_nonempty (title : list N) : sanitize_filename title <> [].
Proof.
  destruct (sanitize_filename_cases title) as [-> | (_ & _ & H)]; [discriminate | exact H].
Qed.

Lemma sanitize_filename_length (title : list N) :
  (length (sanitize_filename title) <= 150)%nat.
Proof.
  destruct (sanitize_filename_cases title) as [-> | (_ & -> & _)].
  - vm_compute. lia.
  - rewrite length_take. lia.
Qed.

Lemma untitled_pdf_clean : clean untitled_pdf.
Proof. unfold clean. repeat constructor. Qed.

Lemma sanitize_filename_clean (title : list N) : clean (sanitize_filename title).
Proof.
  destruct (sanitize_filename_cases title) as [-> | (_ & -> & _)].
  - apply untitled_pdf_clean.
  - unfold clean. apply Forall_take. apply Forall_strip_chars.
    apply sub_underscores_clean, sub_invalid_clean.
Qed.

Lemma sanitize_filename_single_underscores (title : list N) :
  single_underscores (sanitize_filename title) = true.
Proof.
  destruct (sanitize_filename_cases title) as [-> | (_ & -> & _)]; [reflexivity|].
  apply single_underscores_take, single_underscores_strip_chars, sub_underscores_single.
Qed.

Lemma sanitize_filename_not_starting (title : list N) :
  starts_with_char underscore (sanitize_filename title) = false.
Proof.
  destruct (sanitize_filename_cases title) as [-> | (_ & -> & _)]; [reflexivity|].
  apply starts_with_char_take, strip_chars_not_starting.
Qed.

Lemma head_cond_of_starts (s : list N) :
  starts_with_char underscore s = false ->
  match s with [] => True | c :: _ => is_underscore c = false end.
Proof. destruct s; simpl; trivial. Qed.

Lemma starts_of_head_cond (s : list N) :
  match s with [] => True | c :: _ => is_underscore c = false end ->
  starts_with_char underscore s = false.
Proof. destruct s; simpl; trivial. Qed.

(** A clean, short string with single underscores that has nothing to strip
    is a fixed point of the sanitizer. *)
Lemma sanitize_filename_fixed_point (y : list N) :
  y <> [] -> (length y <= 150)%nat -> clean y -> single_underscores y = true ->
  starts_with_char underscore y = false ->
  strip y = y -> ends_with_char underscore y = false ->
  sanitize_filename y = y.
Proof.
  intros Hne Hlen Hclean Hsingle Hstart Hstrip Hend.
  rewrite sanitize_filename_steps by (rewrite Hstrip; exact Hne).
  rewrite Hstrip, (sub_invalid_id _ Hclean), (sub_underscores_id _ Hsingle).
  rewrite strip_chars_id.
  - rewrite take_ge by exact Hlen. destruct y; [contradiction | reflexivity].
  - apply head_cond_of_starts, Hstart.
  - apply head_cond_of_starts, Hend.
Qed.

(** Conversely a fixed point of the sanitizer has nothing to strip. *)
Lemma sanitize_filename_fixed_point_inv (y : list N) :
  sanitize_filename y = y ->
  strip y = y /\ ends_with_char underscore y = false.
Proof.
  intros Hfix.
  destruct (sanitize_filename_cases y) as [Hu | (Hne & Hsteps & _)].
  - rewrite Hfix in Hu. subst y. split; reflexivity.
  - rewrite Hfix in Hsteps.
    set (z1 := strip y) in *.
    set (z3 := sub_underscores (sub_invalid z1)) in *.
    set (z4 := strip_chars is_underscore z3) in *.
    assert (H4 : (length y <= length z4)%nat).
    { rewrite Hsteps at 1. rewrite length_take. lia. }
    assert (H3 : (length z4 <= length z3)%nat) by apply length_strip_chars.
    assert (H2 : (length z3 <= length z1)%nat).
    { unfold z3. etransitivity; [apply length_sub_underscores|].
      rewrite length_sub_invalid. reflexivity. }
    assert (H1 : (length z1 <= length y)%nat) by apply length_strip_chars.
    assert (Hstrip : strip y = y).
    { apply strip_chars_same_length. fold (strip y). fold z1. lia. }
    assert (Hclean : clean y) by (rewrite <- Hfix; apply sanitize_filename_clean).
    subst z4 z3 z1. rewrite Hstrip, (sub_invalid_id _ Hclean) in H2, H3, H4.
    assert (Hz3 : sub_underscores y = y) by (apply sub_underscores_same_length; lia).
    rewrite Hz3 in H3, H4.
    assert (Hz4 : strip_chars is_underscore y = y) by (apply strip_chars_same_length; lia).
    split; [exact Hstrip|].
    apply strip_chars_fixed in Hz4 as [_ Hrev].
    unfold ends_with_char. apply starts_of_head_cond, Hrev.
Qed.

(** C4 (amended). For every input string the sanitizer returns a non-empty
    string of at most 150 characters that contains none of the forbidden
    characters. It is not idempotent in general: sanitizing the result again
    gives the same string exactly when the result has no leading or trailing
    whitespace and does not end with an underscore. *)
Theorem sanitize_filename_total_and_fixed_points (x : list N) :
  sanitize_filename x <> [] /\
  (length (sanitize_filename x) <= 150)%nat /\
  (forall c, In c (sanitize_filename x) -> invalid_char c = false) /\
  (sanitize_filename (sanitize_filename x) = sanitize_filename x <->
   strip (sanitize_filename x) = sanitize_filename x /\
   ends_with_char underscore (sanitize_filename x) = false).
Proof.
  split; [apply sanitize_filename_nonempty|].
  split; [apply sanitize_filename_length|].
  split.
  - pose proof (sanitize_filename_clean x) as H. unfold clean in H.
    rewrite List.Forall_forall in H. exact H.
  - split.
    + apply sanitize_filename_fixed_point_inv.
    + intros [Hstrip Hend]. apply sanitize_filename_fixed_point; auto.
      * apply sanitize_filename_nonempty.
      * apply sanitize_filename_length.
      * apply sanitize_filename_clean.
      * apply sanitize_filename_single_underscores.
      * apply sanitize_filename_not_starting.
Qed.

(** C4 (as stated) fails: the title [_ a] is sanitized to [ a], which is
    sanitized to [a]. *)
Lemma sanitize_filename_not_idempotent :
  sanitize_filename (lit "_ a") = lit " a" /\
  sanitize_filename (sanitize_filename (lit "_ a")) = lit "a" /\
  ~ (forall x, sanitize_filename (sanitize_filename x) = sanitize_filename x).
Proof.
  split; [reflexivity|]. split; [reflexivity|].
  intros H. specialize (H (lit "_ a")). vm_compute in H. discriminate.
Qed.

(** The placeholder is returned for a title that is empty once trimmed and
    for one whose steps leave nothing. *)
Lemma sanitize_filename_placeholder (title : list N) :
  strip title = [] \/
  take 150 (strip_chars is_underscore (sub_underscores (sub_invalid (strip title)))) = [] ->
  sanitize_filename title = lit "untitled.pdf".
Proof.
  intros [H | H].
  - unfold sanitize_filename. rewrite H. reflexivity.
  - destruct (strip title) eqn:Hs.
    + unfold sanitize_filename. rewrite Hs. reflexivity.
    + rewrite sanitize_filename_steps by (rewrite Hs; discriminate).
      rewrite Hs, H. reflexivity.
Qed.

(** C5 (the code at the failing input). A title made of a question mark is
    empty after replacement and stripping of underscores; the sanitizer
    returns [untitled.pdf], not [untitled], and lines 143-144 then build the
    file name [untitled.pdf.pdf]. *)
Theorem sanitize_filename_placeholder_has_extension :
  sanitize_filename (lit "?") = lit "untitled.pdf" /\
  sanitize_filename (lit "?") <> lit "untitled" /\
  sanitize_filename [] = lit "untitled.pdf" /\
  sanitized_title_of (lit "?") = lit "untitled.pdf.pdf" /\
  new_path_of (lit "/docs/scan.pdf") (lit "?") = lit "/docs/untitled.pdf.pdf".
Proof. repeat split; try reflexivity. vm_compute. discriminate. Qed.

(** ** Computations that leave the files alone *)

Section Frame.
Context {A : Type}.

Lemma frame_ret (a : A) : frame (ret a).
Proof. intros w. split; [reflexivity|]. exists []. rewrite app_nil_r. split; reflexivity. Qed.

Lemma frame_raise (e : exn) : frame (@raise A e).
Proof. intros w. split; [reflexivity|]. exists []. rewrite app_nil_r. split; reflexivity. Qed.

Lemma frame_lift (r : res A) : frame (lift r).
Proof. intros w. split; [reflexivity|]. exists []. rewrite app_nil_r. split; reflexivity. Qed.

Lemma frame_bind {B} (m : M B) (k : B -> M A) :
  frame m -> (forall b, frame (k b)) -> frame (bind m k).
Proof.
  intros Hm Hk w. unfold bind.
  destruct (Hm w) as [Hfs [tr [Htr Hall]]].
  destruct (m w) as [[b|e] w1]; simpl in *.
  - destruct (Hk b w1) as [Hfs' [tr' [Htr' Hall']]].
    split; [congruence|]. exists (tr ++ tr').
    rewrite Htr', Htr, <- app_assoc, forallb_app, Hall, Hall'. split; reflexivity.
  - split; [exact Hfs|]. exists tr. split; assumption.
Qed.

Lemma frame_try_except (m : M A) (h : exn -> option (M A)) :
  frame m -> (forall e k, h e = Some k -> frame k) -> frame (try_except m h).
Proof.
  intros Hm Hh w. unfold try_except.
  destruct (Hm w) as [Hfs [tr [Htr Hall]]].
  destruct (m w) as [[a|e] w1]; simpl in *.
  - split; [exact Hfs|]. exists tr. split; assumption.
  - destruct (h e) as [k|] eqn:He; simpl.
    + destruct (Hh e k He w1) as [Hfs' [tr' [Htr' Hall']]].
      split; [congruence|]. exists (tr ++ tr').
      rewrite Htr', Htr, <- app_assoc, forallb_app, Hall, Hall'. split; reflexivity.
    + split; [exact Hfs|]. exists tr. split; assumption.
Qed.

Lemma frame_with_tempdir (E : env) (body : list N -> M A) :
  (forall d, frame (body d)) -> frame (with_tempdir E body).
Proof.
  intros Hb w. unfold with_tempdir, bind, emit.
  destruct (Hb (tempdir E) (World (fs w) (trace w ++ [EvMkdtemp (tempdir E)])))
    as [Hfs [tr [Htr Hall]]].
  destruct (body (tempdir E) _) as [r w1]; simpl in *.
  split; [exact Hfs|].
  exists ([EvMkdtemp (tempdir E)] ++ tr ++ [EvRmtree (tempdir E)]).
  rewrite Htr, <- !app_assoc. split; [reflexivity|].
  simpl. rewrite forallb_app, Hall. reflexivity.
Qed.

Lemma frame_retry_from (stop : nat -> bool) (wait : nat -> N) (retry_if : exn -> bool)
    (f : M A) (budget attempt_number : nat) :
  frame f -> frame (retry_from stop wait retry_if f budget attempt_number).
Proof.
  intros Hf. revert attempt_number.
  induction budget as [|budget IH]; intros n w; simpl;
    destruct (Hf w) as [Hfs [tr [Htr Hall]]];
    destruct (f w) as [[a|e] w1]; simpl in *;
    try (split; [exact Hfs|]; exists tr; split; assumption);
    destruct (retry_if e); try (split; [exact Hfs|]; exists tr; split; assumption);
    destruct (stop n); try (split; [exact Hfs|]; exists tr; split; assumption).
  unfold bind, emit. simpl.
  destruct (IH (S n) (World (fs w1) (trace w1 ++ [EvSleep (wait n)])))
    as [Hfs' [tr' [Htr' Hall']]]. simpl in *.
  split; [congruence|].
  exists (tr ++ [EvSleep (wait n)] ++ tr').
  rewrite Htr', Htr, <- !app_assoc. split; [reflexivity|].
  rewrite forallb_app, Hall. simpl. exact Hall'.
Qed.

End Frame.

Lemma frame_emit (ev : event) : is_mutation ev = false -> frame (emit ev).
Proof.
  intros H w. split; [reflexivity|]. exists [ev]. split; [reflexivity|].
  simpl. rewrite H. reflexivity.
Qed.

Ltac frame_step :=
  match goal with
  | |- frame (bind _ _) => apply frame_bind; [|intros ?]
  | |- frame (ret _) => apply frame_ret
  | |- frame (raise _) => apply frame_raise
  | |- frame (lift _) => apply frame_lift
  | |- frame (log _ _) => apply frame_emit; reflexivity
  | |- frame (emit _) => apply frame_emit; reflexivity
  | |- frame (with_tempdir _ _) => apply frame_with_tempdir; intros ?
  | |- frame (retry_from _ _ _ _ _ _) => apply frame_retry_from
  | |- frame (try_except _ _) =>
      apply frame_try_except;
      [| let e := fresh "e" in let k := fresh "k" in let H := fresh "H" in
         intros e k H; destruct e; inversion H; subst; clear H]
  | |- frame (if ?b then _ else _) => destruct b
  | |- frame (match ?x with _ => _ end) => destruct x
  end.

Lemma frame_run_pdftotext (E : env) (path : list N) : frame (run_pdftotext E path).
Proof. unfold run_pdftotext. repeat frame_step. Qed.

Lemma frame_requests_post (E : env) (model api_key full_text : list N) :
  frame (requests_post E model api_key full_text).
Proof.
  intros w. unfold requests_post.
  apply (frame_bind (emit (EvPost model api_key full_text))); [|intros ?]; repeat frame_step.
Qed.

Lemma frame_extract_text_from_first_page (E : env) (pdf_path : list N) :
  frame (extract_text_from_first_page E pdf_path).
Proof.
  unfold extract_text_from_first_page, ocrmypdf_ocr.
  repeat (frame_step || apply frame_run_pdftotext).
Qed.

Lemma frame_generate_title_body (E : env) (pdf_text api_key model : list N) :
  frame (generate_title_body E pdf_text api_key model).
Proof.
  unfold generate_title_body.
  repeat (frame_step || apply frame_requests_post).
Qed.

Lemma frame_generate_title_with_gemini (E : env) (pdf_text api_key model : list N) :
  frame (generate_title_with_gemini E pdf_text api_key model).
Proof. apply frame_retry_from, frame_generate_title_body. Qed.

(** ** One attempt of the generator *)

(* The text of the prompt plays no part in the proofs. *)
#[local] Opaque prompt.

Section GenerateBody.
Variables (E : env) (pdf_text api_key model : list N).

Lemma posts_so_far_app (fs0 : gmap (list N) (list N)) (tr tr' : list event) :
  posts_so_far (World fs0 (tr ++ tr')) =
  (posts_so_far (World fs0 tr) + length (List.filter is_post tr'))%nat.
Proof. unfold posts_so_far. simpl. rewrite List.filter_app, length_app. reflexivity. Qed.

Lemma requests_post_eval (w : world) :
  requests_post E model api_key (prompt ++ [10] ++ pdf_text) w =
  (post E (posts_so_far w) model api_key (prompt ++ [10] ++ pdf_text),
   World (fs w) (trace w ++ [EvPost model api_key (prompt ++ [10] ++ pdf_text)])).
Proof. reflexivity. Qed.

Lemma generate_title_body_transport (w : world) (e : exn) :
  post E (posts_so_far w) model api_key (prompt ++ [10] ++ pdf_text) = Raise e ->
  generate_title_body E pdf_text api_key model w =
  (Raise e, World (fs w) (trace w ++ [EvPost model api_key (prompt ++ [10] ++ pdf_text)])).
Proof.
  intros H. unfold generate_title_body, bind.
  rewrite requests_post_eval, H. reflexivity.
Qed.

Lemma generate_title_body_status (w : world) (r : response) :
  post E (posts_so_far w) model api_key (prompt ++ [10] ++ pdf_text) = Ret r ->
  status_code r <> 200%Z ->
  generate_title_body E pdf_text api_key model w =
  (Ret [], World (fs w) (trace w ++ [EvPost model api_key (prompt ++ [10] ++ pdf_text);
                                     EvLog ERROR (ApiStatus (status_code r));
                                     EvLog ERROR (ApiResponse (text r))])).
Proof.
  intros H Hs. unfold generate_title_body, bind.
  rewrite requests_post_eval, H.
  apply Z.eqb_neq in Hs. rewrite Hs. simpl.
  rewrite <- !app_assoc. reflexivity.
Qed.

Lemma generate_title_body_text (w : world) (r : response) (body : json) (s : list N) :
  post E (posts_so_far w) model api_key (prompt ++ [10] ++ pdf_text) = Ret r ->
  status_code r = 200%Z ->
  json_body r = Ret body ->
  candidates_text body = Some s ->
  generate_title_body E pdf_text api_key model w =
  (Ret (strip s), World (fs w) (trace w ++ [EvPost model api_key (prompt ++ [10] ++ pdf_text)])).
Proof.
  intros H Hs Hj Hc. unfold generate_title_body, bind.
  rewrite requests_post_eval, H, Hs. simpl.
  unfold try_except, bind, lift. rewrite Hj.
  revert Hc. unfold candidates_text, PyOps.contains, PyOps.getitem_str.
  generalize (lit "candidates"), (lit "content"), (lit "parts"), (lit "text").
  intros kc kn kp kt Hc.
  destruct body as [| | | |?|items]; try discriminate.
  destruct (PyOps.dict_get kc items) as [[| | | |[|[| | | | |cand] ?]|]|]; try discriminate.
  simpl.
  destruct (PyOps.dict_get kn cand) as [[| | | | |content]|]; try discriminate.
  destruct (PyOps.dict_get kp content) as [[| | | |[|[| | | | |part] ?]|]|]; try discriminate.
  simpl.
  destruct (PyOps.dict_get kt part) as [[| | |t| |]|]; try discriminate.
  injection Hc as ->. reflexivity.
Qed.

Lemma generate_title_body_malformed (w : world) (r : response) :
  post E (posts_so_far w) model api_key (prompt ++ [10] ++ pdf_text) = Ret r ->
  status_code r = 200%Z ->
  malformed r ->
  exists logs,
    generate_title_body E pdf_text api_key model w =
    (Ret [], World (fs w) (trace w ++ EvPost model api_key (prompt ++ [10] ++ pdf_text) :: logs)) /\
    forallb is_log logs = true.
Proof.
  intros H Hs Hm. unfold generate_title_body, bind.
  rewrite requests_post_eval, H, Hs. simpl.
  unfold malformed in Hm. unfold try_except, bind, lift.
  assert (Hraise : forall e fs0 tr,
    exists logs,
      bind (log ERROR (ApiParseError e)) (fun _ => ret []) (World fs0 (tr ++ [EvPost model api_key (prompt ++ [10] ++ pdf_text)])) =
      (Ret ([] : list N), World fs0 (tr ++ EvPost model api_key (prompt ++ [10] ++ pdf_text) :: logs)) /\
      forallb is_log logs = true).
  { intros e fs0 tr. exists [EvLog ERROR (ApiParseError e)].
    unfold bind, log, emit, ret. simpl. rewrite <- app_assoc. split; reflexivity. }
  assert (Hquiet : exists logs,
      (Ret ([] : list N), World (fs w) (trace w ++ [EvPost model api_key (prompt ++ [10] ++ pdf_text)])) =
      (Ret ([] : list N), World (fs w) (trace w ++ EvPost model api_key (prompt ++ [10] ++ pdf_text) :: logs)) /\
      forallb is_log logs = true).
  { exists []. split; reflexivity. }
  destruct (json_body r) as [body|e]; [|apply Hraise].
  revert Hm. unfold candidates_text, PyOps.contains, PyOps.getitem_str.
  generalize (lit "candidates"), (lit "content"), (lit "parts"), (lit "text").
  intros kc kn kp kt Hm.
  destruct body as [| | |s|l|items]; simpl; try apply Hraise.
  - destruct (PyOps.is_infix kc s); simpl; [apply Hraise | apply Hquiet].
  - destruct (existsb _ l); simpl; [apply Hraise | apply Hquiet].
  - destruct (PyOps.dict_get kc items) as [cands|]; simpl; [|apply Hquiet].
    destruct cands as [| | |s|l|cs]; simpl; try apply Hraise.
    + destruct s as [|c s]; simpl; [apply Hquiet | apply Hraise].
    + destruct l as [|cand l]; simpl; [apply Hquiet|].
      destruct cand as [| | | | |cand]; simpl; try apply Hraise.
      destruct (PyOps.dict_get kn cand) as [content|]; simpl; [|apply Hraise].
      destruct content as [| | | | |content]; simpl; try apply Hraise.
      destruct (PyOps.dict_get kp content) as [parts|]; simpl; [|apply Hraise].
      destruct parts as [| | |s|ps|]; simpl; try apply Hraise.
      * destruct s; simpl; apply Hraise.
      * destruct ps as [|part ps]; simpl; [apply Hraise|].
        destruct part as [| | | | |part]; simpl; try apply Hraise.
        destruct (PyOps.dict_get kt part) as [t|]; simpl; [|apply Hraise].
        destruct t; simpl; try apply Hraise. discriminate.
    + destruct cs; simpl; [apply Hquiet | apply Hraise].
Qed.

End GenerateBody.

(** ** The retry decorator *)

Section Retry.
Context {A : Type} (stop : nat -> bool) (wait : nat -> N) (retry_if : exn -> bool) (f : M A).

Lemma retry_from_ret (budget n : nat) (w w' : world) (a : A) :
  f w = (Ret a, w') ->
  retry_from stop wait retry_if f budget n w = (Ret a, w').
Proof. intros H. destruct budget; simpl; rewrite H; reflexivity. Qed.

Lemma retry_from_reraise (budget n : nat) (w w' : world) (e : exn) :
  f w = (Raise e, w') -> retry_if e = false ->
  retry_from stop wait retry_if f budget n w = (Raise e, w').
Proof. intros H He. destruct budget; simpl; rewrite H, He; reflexivity. Qed.

Lemma retry_from_stop (budget n : nat) (w w' : world) (e : exn) :
  f w = (Raise e, w') -> retry_if e = true -> stop n = true ->
  retry_from stop wait retry_if f budget n w = (Raise RetryError, w').
Proof. intros H He Hs. destruct budget; simpl; rewrite H, He, Hs; reflexivity. Qed.

Lemma retry_from_again (budget n : nat) (w w' : world) (e : exn) :
  f w = (Raise e, w') -> retry_if e = true -> stop n = false ->
  retry_from stop wait retry_if f (S budget) n w =
  retry_from stop wait retry_if f budget (S n)
    (World (fs w') (trace w' ++ [EvSleep (wait n)])).
Proof. intros H He Hs. simpl. rewrite H, He, Hs. reflexivity. Qed.

End Retry.

(** After [k] transport errors, [k] below 3, the call goes on with attempt
    [k + 1] from the world that holds the [k] requests and the [k] sleeps. *)
Lemma generate_after_transport_errors (E : env) (pdf_text api_key model : list N)
    (w : world) (k : nat) :
  (k < 3)%nat ->
  (forall j, (j < k)%nat ->
     exists e, post E (posts_so_far w + j) model api_key (prompt ++ [10] ++ pdf_text) = Raise e
               /\ is_RequestException e = true) ->
  generate_title_with_gemini E pdf_text api_key model w =
    retry_from (stop_after_attempt 3) (wait_exponential 1 4 10) is_RequestException
      (generate_title_body E pdf_text api_key model) (3 - k) (S k)
      (World (fs w)
         (trace w ++ concat (repeat [EvPost model api_key (prompt ++ [10] ++ pdf_text); EvSleep 4] k)))
  /\ posts_so_far
       (World (fs w)
          (trace w ++ concat (repeat [EvPost model api_key (prompt ++ [10] ++ pdf_text); EvSleep 4] k)))
     = (posts_so_far w + k)%nat.
Proof.
  intros Hk H. unfold generate_title_with_gemini.
  destruct k as [|[|[|k]]]; [| | |lia].
  - simpl. rewrite app_nil_r, Nat.add_0_r. destruct w; split; reflexivity.
  - destruct (H 0%nat) as [e0 [H0 R0]]; [lia|]. rewrite Nat.add_0_r in H0.
    rewrite (retry_from_again (stop_after_attempt 3) (wait_exponential 1 4 10) _ _ 2 1 _ _ _
               (generate_title_body_transport E pdf_text api_key model w e0 H0) R0 eq_refl).
    cbn [fs trace]. change (wait_exponential 1 4 10 1) with 4.
    simpl concat. rewrite <- app_assoc. cbn [app]. split; [reflexivity|].
    rewrite posts_so_far_app. simpl. destruct w; reflexivity.
  - destruct (H 0%nat) as [e0 [H0 R0]]; [lia|]. rewrite Nat.add_0_r in H0.
    destruct (H 1%nat) as [e1 [H1 R1]]; [lia|].
    rewrite (retry_from_again (stop_after_attempt 3) (wait_exponential 1 4 10) _ _ 2 1 _ _ _
               (generate_title_body_transport E pdf_text api_key model w e0 H0) R0 eq_refl).
    cbn [fs trace]. change (wait_exponential 1 4 10 1) with 4.
    replace ((trace w ++ [EvPost model api_key (prompt ++ [10] ++ pdf_text)]) ++ [EvSleep 4])
      with (trace w ++ [EvPost model api_key (prompt ++ [10] ++ pdf_text); EvSleep 4])
      by (rewrite <- app_assoc; reflexivity).
    assert (Hp1 : posts_so_far
              (World (fs w) (trace w ++ [EvPost model api_key (prompt ++ [10] ++ pdf_text); EvSleep 4]))
            = (posts_so_far w + 1)%nat).
    { rewrite posts_so_far_app. simpl. destruct w; reflexivity. }
    rewrite <- Hp1 in H1.
    rewrite (retry_from_again (stop_after_attempt 3) (wait_exponential 1 4 10) _ _ 1 2 _ _ _
               (generate_title_body_transport E pdf_text api_key model _ e1 H1) R1 eq_refl).
    cbn [fs trace]. change (wait_exponential 1 4 10 2) with 4.
    simpl concat. repeat rewrite <- app_assoc. cbn [app]. split; [reflexivity|].
    rewrite posts_so_far_app. simpl. destruct w; reflexivity.
Qed.

Lemma attempts_trace (tr logs : list event) (P : event) (k : nat) :
  (tr ++ concat (repeat [P; EvSleep 4] k)) ++ P :: logs = tr ++ attempts P k ++ logs.
Proof. unfold attempts. repeat rewrite <- app_assoc. reflexivity. Qed.

(** C3 (amended). When the first three requests of a call fail with a
    transport error, the generator sends exactly three requests, sleeps 4
    time units after the first and after the second, and then raises
    [RetryError] to its caller; it does not return the empty title. *)
Theorem generate_three_transport_errors_raise (E : env)
    (pdf_text api_key model : list N) (w : world) :
  (forall k, (k < 3)%nat ->
     exists e, post E (posts_so_far w + k) model api_key (prompt ++ [10] ++ pdf_text) = Raise e
               /\ is_RequestException e = true) ->
  generate_title_with_gemini E pdf_text api_key model w =
  (Raise RetryError,
   World (fs w)
     (trace w ++ [EvPost model api_key (prompt ++ [10] ++ pdf_text); EvSleep 4;
                  EvPost model api_key (prompt ++ [10] ++ pdf_text); EvSleep 4;
                  EvPost model api_key (prompt ++ [10] ++ pdf_text)])).
Proof.
  intros H. set (full := prompt ++ [10] ++ pdf_text) in *.
  destruct (H 0%nat) as [e0 [H0 R0]]; [lia|].
  destruct (H 1%nat) as [e1 [H1 R1]]; [lia|].
  destruct (H 2%nat) as [e2 [H2 R2]]; [lia|].
  rewrite Nat.add_0_r in H0.
  unfold generate_title_with_gemini.
  erewrite retry_from_again;
    [| apply generate_title_body_transport; exact H0 | exact R0 | reflexivity].
  erewrite retry_from_again;
    [| apply generate_title_body_transport | exact R1 | reflexivity].
  2:{ simpl. rewrite <- app_assoc, posts_so_far_app. simpl.
      destruct w; exact H1. }
  erewrite retry_from_stop;
    [| apply generate_title_body_transport | exact R2 | reflexivity].
  2:{ simpl. rewrite <- !app_assoc, posts_so_far_app. simpl.
      destruct w; exact H2. }
  simpl. rewrite <- !app_assoc. reflexivity.
Qed.

Lemma generate_three_transport_errors_raise_witness :
  generate_title_with_gemini Examples.E_down Examples.page_text Examples.api_key
    Examples.model Examples.w_docs =
  (Raise RetryError,
   World (fs Examples.w_docs)
     (trace Examples.w_docs ++
      [EvPost Examples.model Examples.api_key (prompt ++ [10] ++ Examples.page_text); EvSleep 4;
       EvPost Examples.model Examples.api_key (prompt ++ [10] ++ Examples.page_text); EvSleep 4;
       EvPost Examples.model Examples.api_key (prompt ++ [10] ++ Examples.page_text)])).
Proof.
  apply (generate_three_transport_errors_raise Examples.E_down).
  intros k _. exists RequestsConnectionError. split; reflexivity.
Defined.

(** C3 (as stated) fails: with a service that is down, the three requests
    are made but the call ends in [RetryError], not in the empty title. *)
Lemma generate_transport_errors_not_no_title :
  (forall k, post Examples.E_down k Examples.model Examples.api_key
               (prompt ++ [10] ++ Examples.page_text) = Raise RequestsConnectionError) /\
  is_RequestException RequestsConnectionError = true /\
  fst (generate_title_with_gemini Examples.E_down Examples.page_text Examples.api_key
         Examples.model Examples.w_docs) = Raise RetryError /\
  fst (generate_title_with_gemini Examples.E_down Examples.page_text Examples.api_key
         Examples.model Examples.w_docs) <> Ret [] /\
  fst (rename_pdf Examples.E_down Examples.doc_path Examples.api_key false
         Examples.model Examples.w_docs) = Raise RetryError.
Proof.
  split; [reflexivity|]. split; [reflexivity|].
  split; [vm_compute; reflexivity|]. split; vm_compute; [discriminate | reflexivity].
Qed.

(** C9. In every call of the generator, a response with a status outside
    200-299 and a response whose body is malformed both end the call with
    the empty title, whether they answer the first request or one that
    follows retried transport errors: nothing is raised, and no further
    request and no sleep follow the response, only log records. *)
Theorem generate_service_error_is_no_title (E : env)
    (pdf_text api_key model : list N) (w : world) (r : response) (k : nat) :
  (k < 3)%nat ->
  (forall j, (j < k)%nat ->
     exists e, post E (posts_so_far w + j) model api_key (prompt ++ [10] ++ pdf_text) = Raise e
               /\ is_RequestException e = true) ->
  post E (posts_so_far w + k) model api_key (prompt ++ [10] ++ pdf_text) = Ret r ->
  (status_code r < 200 \/ 299 < status_code r)%Z \/ malformed r ->
  exists logs,
    generate_title_with_gemini E pdf_text api_key model w =
    (Ret [],
     World (fs w)
       (trace w ++ attempts (EvPost model api_key (prompt ++ [10] ++ pdf_text)) k ++ logs))
    /\ forallb is_log logs = true.
Proof.
  intros Hk Herr Hp Hr.
  destruct (generate_after_transport_errors E pdf_text api_key model w k Hk Herr) as [-> Hposts].
  rewrite <- Hposts in Hp.
  destruct (Z.eq_dec (status_code r) 200%Z) as [H200 | Hne].
  - destruct Hr as [Hr | Hm]; [lia|].
    destruct (generate_title_body_malformed E pdf_text api_key model _ r Hp H200 Hm)
      as [logs [Hb Hl]].
    exists logs. split; [|exact Hl].
    rewrite (retry_from_ret _ _ _ _ _ _ _ _ _ Hb). cbn [fs trace].
    rewrite attempts_trace. reflexivity.
  - eexists. split.
    + rewrite (retry_from_ret _ _ _ _ _ _ _ _ _
                 (generate_title_body_status E pdf_text api_key model _ r Hp Hne)).
      cbn [fs trace]. rewrite attempts_trace. reflexivity.
    + reflexivity.
Qed.

Lemma generate_service_error_is_no_title_witness :
  (exists logs,
    generate_title_with_gemini (Examples.E_status 503) Examples.page_text Examples.api_key
      Examples.model Examples.w_docs =
    (Ret [], World (fs Examples.w_docs)
       (trace Examples.w_docs ++ attempts Examples.request 0 ++ logs))
    /\ forallb is_log logs = true) /\
  (exists logs,
    generate_title_with_gemini (MoreExamples.E_flaky_status 503) Examples.page_text
      Examples.api_key Examples.model Examples.w_docs =
    (Ret [], World (fs Examples.w_docs)
       (trace Examples.w_docs ++ attempts Examples.request 1 ++ logs))
    /\ forallb is_log logs = true) /\
  (exists logs,
    generate_title_with_gemini (Examples.E_status 200) Examples.page_text Examples.api_key
      Examples.model Examples.w_docs =
    (Ret [], World (fs Examples.w_docs)
       (trace Examples.w_docs ++ attempts Examples.request 0 ++ logs))
    /\ forallb is_log logs = true).
Proof.
  split; [|split].
  - apply (generate_service_error_is_no_title (Examples.E_status 503) _ _ _ _
             (Response 503 (lit "error") (Raise ValueError)) 0).
    + lia.
    + intros j Hj. lia.
    + reflexivity.
    + left. right. simpl. lia.
  - apply (generate_service_error_is_no_title (MoreExamples.E_flaky_status 503) _ _ _ _
             (Response 503 (lit "error") (Raise ValueError)) 1).
    + lia.
    + intros j Hj. exists RequestsConnectionError.
      assert (j = 0)%nat as -> by lia. split; reflexivity.
    + reflexivity.
    + left. right. simpl. lia.
  - apply (generate_service_error_is_no_title (Examples.E_status 200) _ _ _ _
             (Response 200 (lit "error") (Raise ValueError)) 0).
    + lia.
    + intros j Hj. lia.
    + reflexivity.
    + right. exact I.
Defined.

(** ** The directory driver *)

(** C1 (the code at every input). The body of the driver starts with
    [filename.lower()] on the function imported from [fileinput]: whatever
    the directory holds, the call raises [AttributeError] before any document
    is looked at, with no event and no change of the files. *)
Theorem rename_pdfs_in_directory_raises (E : env) (directory_path api_key : list N)
    (dry_run : bool) (model : list N) (w : world) :
  rename_pdfs_in_directory E directory_path api_key dry_run model w =
  (Raise AttributeError, w).
Proof. reflexivity. Qed.

(** ** Text acquisition *)

Section Extract.
Variables (E : env) (pdf_path : list N).

Lemma extract_structural (w : world) (c : completed) :
  pdftotext E pdf_path = Ret c ->
  returncode c = 0%Z ->
  (50 <= length (strip (stdout c)))%nat ->
  extract_text_from_first_page E pdf_path w =
  (Ret (strip (stdout c)), World (fs w) (trace w ++ [EvPdftotext pdf_path])).
Proof.
  intros Hc Hrc Hlen.
  unfold extract_text_from_first_page, bind, try_except, run_pdftotext, bind, emit, lift.
  apply Nat.leb_le in Hlen.
  cbv beta iota zeta. rewrite Hc. cbv beta iota zeta. rewrite Hrc, Hlen. reflexivity.
Qed.

Lemma extract_fallback (w : world) (c : completed) :
  pdftotext E pdf_path = Ret c ->
  (length (strip (stdout c)) < 50)%nat ->
  exists r rest,
    extract_text_from_first_page E pdf_path w =
    (r, World (fs w)
          (trace w ++ ocr_prefix E pdf_path ++
           EvOcr pdf_path (Posixpath.join (tempdir E) (lit "ocr_output.pdf")) :: rest)) /\
    forallb (fun ev => negb (is_post ev)) rest = true.
Proof.
  intros Hc Hlen. apply Nat.leb_gt in Hlen.
  unfold extract_text_from_first_page, bind, try_except, run_pdftotext, bind, emit, lift,
    with_tempdir, ocrmypdf_ocr, bind, emit, lift, log, emit, ocr_prefix.
  cbv beta iota zeta. rewrite Hc. cbv beta iota zeta. rewrite Hlen. cbn [fs trace].
  assert (Hfirst : (if (returncode c =? 0)%Z then @ret (option (list N)) None else ret None)
                   = ret None) by (destruct (returncode c =? 0)%Z; reflexivity).
  rewrite Hfirst. unfold ret. simpl.
  destruct (ocr E pdf_path) as [[]|e]; simpl.
  - destruct (pdftotext E (Posixpath.join (tempdir E) (lit "ocr_output.pdf"))) as [c2|e2]; simpl.
    + destruct (returncode c2 =? 0)%Z; simpl;
        eexists _, _; (split; [repeat rewrite <- app_assoc; simpl; reflexivity | reflexivity]).
    + destruct e2; simpl;
        eexists _, _; (split; [repeat rewrite <- app_assoc; simpl; reflexivity | reflexivity]).
  - destruct e; simpl;
      eexists _, _; (split; [repeat rewrite <- app_assoc; simpl; reflexivity | reflexivity]).
Qed.

End Extract.

(** ** The stages of rename_pdf *)

Lemma no_mutation_filter (tr : list event) :
  forallb (fun ev => negb (is_mutation ev)) tr = true -> List.filter is_mutation tr = [].
Proof.
  induction tr as [|ev tr IH]; simpl; [reflexivity|].
  intros H. apply andb_true_iff in H as [H1 H2]. apply negb_true_iff in H1.
  rewrite H1. apply IH, H2.
Qed.

Lemma frame_result {A} (m : M A) (w w' : world) (r : res A) :
  frame m -> m w = (r, w') ->
  fs w' = fs w /\
  List.filter is_mutation (trace w') = List.filter is_mutation (trace w) /\
  exists tr, trace w' = trace w ++ tr.
Proof.
  intros Hm Hr. destruct (Hm w) as [Hfs [tr [Htr Hall]]]. rewrite Hr in Hfs, Htr.
  simpl in *. split; [exact Hfs|]. split; [|exists tr; exact Htr].
  rewrite Htr, List.filter_app, (no_mutation_filter _ Hall), app_nil_r. reflexivity.
Qed.

Section RenamePdf.
Variables (E : env) (pdf_path api_key model : list N).

(** What is left of rename_pdf once a text and a title are there. *)
Lemma rename_pdf_stage (dry_run : bool) (w w1 w2 : world) (pdf_text new_title : list N) :
  extract_text_from_first_page E pdf_path w = (Ret pdf_text, w1) -> pdf_text <> [] ->
  generate_title_with_gemini E pdf_text api_key model w1 = (Ret new_title, w2) ->
  new_title <> [] ->
  rename_pdf E pdf_path api_key dry_run model w =
  (if dry_run then log INFO (DryRunWouldRename (Posixpath.basename pdf_path) new_title)
   else
     bind (os_path_exists (new_path_of pdf_path new_title)) (fun present =>
       if negb present then
         bind (os_rename E pdf_path (new_path_of pdf_path new_title))
              (fun _ => log INFO (RenamedTo (new_path_of pdf_path new_title)))
       else log WARNING (AlreadyExists (sanitized_title_of new_title)))) w2.
Proof.
  intros Hx Hne Hg Hnt. unfold rename_pdf. unfold bind at 1. rewrite Hx.
  destruct pdf_text as [|c t]; [contradiction|]. cbn [is_empty].
  unfold bind at 1. rewrite Hg.
  destruct new_title as [|c' t']; [contradiction|]. cbn [is_empty].
  reflexivity.
Qed.

Lemma stage_frame (w w1 w2 : world) (pdf_text new_title : list N) :
  extract_text_from_first_page E pdf_path w = (Ret pdf_text, w1) ->
  generate_title_with_gemini E pdf_text api_key model w1 = (Ret new_title, w2) ->
  fs w2 = fs w /\
  List.filter is_mutation (trace w2) = List.filter is_mutation (trace w).
Proof.
  intros Hx Hg.
  destruct (frame_result _ _ _ _ (frame_extract_text_from_first_page E pdf_path) Hx)
    as (F1 & M1 & _).
  destruct (frame_result _ _ _ _ (frame_generate_title_with_gemini E pdf_text api_key model) Hg)
    as (F2 & M2 & _).
  split; congruence.
Qed.

Lemma rename_pdf_dry_run (w w1 w2 : world) (pdf_text new_title : list N) :
  extract_text_from_first_page E pdf_path w = (Ret pdf_text, w1) -> pdf_text <> [] ->
  generate_title_with_gemini E pdf_text api_key model w1 = (Ret new_title, w2) ->
  new_title <> [] ->
  rename_pdf E pdf_path api_key true model w =
  (Ret tt, World (fs w)
     (trace w2 ++ [EvLog INFO (DryRunWouldRename (Posixpath.basename pdf_path) new_title)])).
Proof.
  intros Hx Hne Hg Hnt. rewrite (rename_pdf_stage true w w1 w2 pdf_text new_title) by assumption.
  destruct (stage_frame _ _ _ _ _ Hx Hg) as [F _].
  unfold log, emit. rewrite F. reflexivity.
Qed.

Lemma rename_pdf_exists (w w1 w2 : world) (pdf_text new_title : list N) :
  extract_text_from_first_page E pdf_path w = (Ret pdf_text, w1) -> pdf_text <> [] ->
  generate_title_with_gemini E pdf_text api_key model w1 = (Ret new_title, w2) ->
  new_title <> [] ->
  is_Some (fs w !! new_path_of pdf_path new_title) ->
  rename_pdf E pdf_path api_key false model w =
  (Ret tt, World (fs w)
     (trace w2 ++ [EvLog WARNING (AlreadyExists (sanitized_title_of new_title))])).
Proof.
  intros Hx Hne Hg Hnt Hex.
  rewrite (rename_pdf_stage false w w1 w2 pdf_text new_title) by assumption.
  destruct (stage_frame _ _ _ _ _ Hx Hg) as [F _].
  unfold bind, os_path_exists. rewrite F, (bool_decide_eq_true_2 _ Hex).
  unfold log, emit. cbn [negb]. rewrite F. reflexivity.
Qed.

Lemma rename_pdf_renames (w w1 w2 : world) (pdf_text new_title content : list N) :
  extract_text_from_first_page E pdf_path w = (Ret pdf_text, w1) -> pdf_text <> [] ->
  generate_title_with_gemini E pdf_text api_key model w1 = (Ret new_title, w2) ->
  new_title <> [] ->
  fs w !! pdf_path = Some content ->
  fs w !! new_path_of pdf_path new_title = None ->
  rename_refused E pdf_path (new_path_of pdf_path new_title) = None ->
  rename_pdf E pdf_path api_key false model w =
  (Ret tt, World (<[new_path_of pdf_path new_title := content]> (delete pdf_path (fs w)))
     (trace w2 ++ [EvRename pdf_path (new_path_of pdf_path new_title);
                   EvLog INFO (RenamedTo (new_path_of pdf_path new_title))])).
Proof.
  intros Hx Hne Hg Hnt Hsrc Hdst Hok.
  rewrite (rename_pdf_stage false w w1 w2 pdf_text new_title) by assumption.
  destruct (stage_frame _ _ _ _ _ Hx Hg) as [F _].
  unfold bind, os_path_exists. rewrite F.
  rewrite bool_decide_eq_false_2 by (rewrite Hdst; intros [? ?]; discriminate).
  cbn [negb]. unfold os_rename. rewrite Hok, F, Hsrc.
  unfold log, emit. cbn [fs trace]. rewrite <- app_assoc. reflexivity.
Qed.

(** Whatever the text acquisition did, the rest of rename_pdf only adds to
    its trace. *)
Lemma rename_pdf_extends (dry_run : bool) (w w1 : world) (r : res (list N)) :
  extract_text_from_first_page E pdf_path w = (r, w1) ->
  exists tr, trace (snd (rename_pdf E pdf_path api_key dry_run model w)) = trace w1 ++ tr.
Proof.
  intros Hx. unfold rename_pdf. unfold bind at 1. rewrite Hx.
  destruct r as [pdf_text|e]; [|exists []; rewrite app_nil_r; reflexivity].
  destruct (is_empty pdf_text); [eexists; reflexivity|].
  unfold bind at 1.
  destruct (generate_title_with_gemini E pdf_text api_key model w1) as [[title|e] w2] eqn:Hg;
    destruct (frame_result _ _ _ _ (frame_generate_title_with_gemini E pdf_text api_key model) Hg)
      as (_ & _ & tr & Htr); [|exists tr; exact Htr].
  destruct (is_empty title); [exists (tr ++ [EvLog WARNING (NoTitleGenerated pdf_path)]);
                              simpl; rewrite Htr, app_assoc; reflexivity|].
  destruct dry_run; [eexists; simpl; rewrite Htr, <- app_assoc; reflexivity|].
  unfold bind, os_path_exists.
  destruct (negb _).
  - unfold os_rename.
    destruct (rename_refused E pdf_path (new_path_of pdf_path title));
      [|destruct (fs w2 !! pdf_path)]; simpl;
      eexists; rewrite Htr, <- !app_assoc; reflexivity.
  - eexists; simpl; rewrite Htr, <- app_assoc; reflexivity.
Qed.

End RenamePdf.

(** ** Paths *)

Module PosixpathFacts.
Import Posixpath.

Lemma rfind_lower (c : N) (s : list N) : (-1 <= rfind c s)%Z.
Proof.
  induction s as [|x t IH]; simpl; [lia|].
  destruct (0 <=? rfind c t)%Z eqn:H; [apply Z.leb_le in H; lia|].
  destruct (x =? c); lia.
Qed.

Lemma rfind_absent (s : list N) :
  forallb (fun c => negb (is_sep c)) s = true -> rfind sep s = (-1)%Z.
Proof.
  induction s as [|x t IH]; simpl; [reflexivity|].
  intros H. apply andb_true_iff in H as [Hx Ht]. rewrite (IH Ht). simpl.
  apply negb_true_iff in Hx. unfold is_sep in Hx. rewrite Hx. reflexivity.
Qed.

Lemma rfind_last (pre name : list N) :
  forallb (fun c => negb (is_sep c)) name = true ->
  rfind sep (pre ++ sep :: name) = Z.of_nat (length pre).
Proof.
  intros Hn. induction pre as [|x t IH].
  - cbn [app rfind length]. rewrite (rfind_absent _ Hn). reflexivity.
  - cbn [app rfind length]. rewrite IH.
    replace (0 <=? Z.of_nat (length t))%Z with true by (symmetry; apply Z.leb_le; lia).
    lia.
Qed.

Lemma split_point_absent (name : list N) :
  forallb (fun c => negb (is_sep c)) name = true -> split_point name = 0%nat.
Proof. intros H. unfold split_point. rewrite (rfind_absent _ H). reflexivity. Qed.

Lemma split_point_last (pre name : list N) :
  forallb (fun c => negb (is_sep c)) name = true ->
  split_point (pre ++ sep :: name) = S (length pre).
Proof. intros H. unfold split_point. rewrite (rfind_last _ _ H). lia. Qed.

Lemma rstrip_not_ending (s : list N) :
  ends_with_char sep (rstrip is_sep s) = false.
Proof.
  unfold ends_with_char, rstrip. rewrite rev_involutive.
  pose proof (drop_while_head is_sep (rev s)) as H.
  destruct (drop_while is_sep (rev s)); simpl; [reflexivity | exact H].
Qed.

Lemma rstrip_nonempty (s : list N) :
  forallb is_sep s = false -> rstrip is_sep s <> [].
Proof.
  intros H Hnil. destruct (rstrip_split is_sep s) as [suf [Hs Hall]].
  rewrite Hnil in Hs. simpl in Hs. subst suf. congruence.
Qed.

(** A directory name is made of separators only, or does not end with one. *)
Lemma dirname_shape (p : list N) :
  forallb is_sep (dirname p) = true \/
  (forallb is_sep (dirname p) = false /\ dirname p <> [] /\
   ends_with_char sep (dirname p) = false).
Proof.
  unfold dirname. set (head := take (split_point p) p).
  destruct (is_empty head) eqn:He; simpl.
  - left. destruct head; [reflexivity | discriminate].
  - destruct (forallb is_sep head) eqn:Ha; simpl; [left; exact Ha|].
    pose proof (rstrip_nonempty _ Ha) as Hne.
    pose proof (rstrip_not_ending head) as Hend.
    destruct (forallb is_sep (rstrip is_sep head)) eqn:Hr; [left; reflexivity|].
    right. repeat split; assumption.
Qed.

Lemma all_sep_snoc (d : list N) :
  d <> [] -> forallb is_sep d = true -> exists d', d = d' ++ [sep].
Proof.
  intros Hne Hall. destruct (rev d) as [|x l] eqn:Hr.
  - apply (f_equal (@rev N)) in Hr. rewrite rev_involutive in Hr. contradiction.
  - apply (f_equal (@rev N)) in Hr. rewrite rev_involutive in Hr. simpl in Hr.
    exists (rev l). rewrite Hr in Hall. rewrite forallb_app in Hall.
    apply andb_true_iff in Hall as [_ Hx]. simpl in Hx. rewrite andb_true_r in Hx.
    unfold is_sep in Hx. apply N.eqb_eq in Hx. subst x. exact Hr.
Qed.

(** Joining a directory name with a name that holds no separator gives a
    path in that directory, under that name. *)
Lemma dirname_basename_join (p name : list N) :
  forallb (fun c => negb (is_sep c)) name = true ->
  dirname (join (dirname p) name) = dirname p /\
  basename (join (dirname p) name) = name.
Proof.
  intros Hn.
  assert (Hstart : starts_with_char sep name = false).
  { destruct name as [|x t]; simpl in *; [reflexivity|].
    apply andb_true_iff in Hn as [Hx _]. apply negb_true_iff in Hx. exact Hx. }
  unfold join. rewrite Hstart.
  pose proof (dirname_shape p) as Hshape.
  generalize dependent (dirname p). intros d [Hall | (Hnall & Hne & Hend)].
  - destruct (decide (d = [])) as [-> | Hne].
    + simpl. unfold dirname, basename. rewrite (split_point_absent _ Hn). split; reflexivity.
    + destruct (all_sep_snoc d Hne Hall) as [d' Hd'].
      assert (Hends : ends_with_char sep d = true).
      { rewrite Hd'. unfold ends_with_char. rewrite rev_app_distr. reflexivity. }
      rewrite Hends, orb_true_r.
      assert (Hsp : split_point (d ++ name) = length d).
      { rewrite Hd', <- app_assoc. simpl. rewrite (split_point_last _ _ Hn).
        rewrite length_app. simpl. lia. }
      unfold dirname, basename. rewrite Hsp, take_app_length, drop_app_length, Hall.
      rewrite andb_false_r. split; reflexivity.
  - assert (Hemp : is_empty d = false) by (destruct d; [contradiction | reflexivity]).
    rewrite Hemp, Hend. simpl.
    assert (Hsp : split_point (d ++ sep :: name) = S (length d)) by apply (split_point_last _ _ Hn).
    unfold dirname, basename. rewrite Hsp.
    replace (d ++ sep :: name) with ((d ++ [sep]) ++ name) by (rewrite <- app_assoc; reflexivity).
    replace (S (length d)) with (length (d ++ [sep])) by (rewrite length_app; simpl; lia).
    rewrite take_app_length, drop_app_length.
    assert (Hh : is_empty (d ++ [sep]) = false) by (destruct d; reflexivity).
    rewrite Hh, forallb_app, Hnall. simpl. split; [|reflexivity].
    unfold rstrip. rewrite rev_app_distr. simpl.
    rewrite drop_while_id; [apply rev_involutive|].
    unfold ends_with_char in Hend. destruct (rev d); simpl in *; [exact I | exact Hend].
Qed.

End PosixpathFacts.

Lemma sanitized_title_no_sep (new_title : list N) :
  forallb (fun c => negb (Posixpath.is_sep c)) (sanitized_title_of new_title) = true.
Proof.
  unfold sanitized_title_of. rewrite forallb_app. apply andb_true_iff. split; [|reflexivity].
  pose proof (sanitize_filename_clean new_title) as H. unfold clean in H.
  induction H as [|c t Hc _ IH]; simpl; [reflexivity|].
  rewrite IH, andb_true_r. apply negb_true_iff. unfold Posixpath.is_sep, Posixpath.sep.
  unfold invalid_char in Hc. repeat (apply orb_false_iff in Hc as [Hc ?]). assumption.
Qed.

(** The destination of lines 143-144 lies in the directory of the document
    and is named by the sanitized title followed by [.pdf]. *)
Lemma new_path_in_directory (pdf_path new_title : list N) :
  Posixpath.dirname (new_path_of pdf_path new_title) = Posixpath.dirname pdf_path /\
  Posixpath.basename (new_path_of pdf_path new_title) = sanitize_filename new_title ++ lit ".pdf".
Proof.
  unfold new_path_of.
  apply PosixpathFacts.dirname_basename_join, sanitized_title_no_sep.
Qed.

(** ** The pipeline *)

(** C8. When pdftotext succeeds on the document with at least 50 characters
    of trimmed text, the text acquisition returns that text and its only
    effect is that one run of pdftotext: the OCR is not called. When the
    trimmed text has fewer than 50 characters, the OCR is called on the
    document, and nothing between the start of the run of rename_pdf and that
    call is a request to the generation service. *)
Theorem ocr_fallback_ordering (E : env) (pdf_path api_key model : list N)
    (dry_run : bool) (w : world) (c : completed) :
  pdftotext E pdf_path = Ret c ->
  (returncode c = 0%Z -> (50 <= length (strip (stdout c)))%nat ->
   extract_text_from_first_page E pdf_path w =
     (Ret (strip (stdout c)), World (fs w) (trace w ++ [EvPdftotext pdf_path])) /\
   List.filter is_ocr (trace (snd (extract_text_from_first_page E pdf_path w))) =
     List.filter is_ocr (trace w)) /\
  ((length (strip (stdout c)) < 50)%nat ->
   exists rest,
     trace (snd (rename_pdf E pdf_path api_key dry_run model w)) =
       trace w ++ ocr_prefix E pdf_path ++
       EvOcr pdf_path (Posixpath.join (tempdir E) (lit "ocr_output.pdf")) :: rest /\
     List.filter is_post (ocr_prefix E pdf_path) = []).
Proof.
  intros Hc. split.
  - intros Hrc Hlen. rewrite (extract_structural E pdf_path w c Hc Hrc Hlen).
    split; [reflexivity|]. simpl. rewrite List.filter_app. simpl. apply app_nil_r.
  - intros Hlen.
    destruct (extract_fallback E pdf_path w c Hc Hlen) as (r & rest & Hx & _).
    destruct (rename_pdf_extends E pdf_path api_key model dry_run w _ r Hx) as [tr Htr].
    exists (rest ++ tr). split; [|reflexivity].
    rewrite Htr. simpl. rewrite <- !app_assoc. reflexivity.
Qed.

Lemma ocr_fallback_ordering_witness :
  (extract_text_from_first_page (Examples.E_title (lit "Report")) Examples.doc_path
     Examples.w_docs =
   (Ret Examples.page_text, Examples.after_extract Examples.doc_path Examples.w_docs)) /\
  (exists rest,
     trace (snd (rename_pdf (Examples.E_scanned (lit "Report")) Examples.doc_path
                   Examples.api_key false Examples.model Examples.w_docs)) =
       trace Examples.w_docs ++ ocr_prefix (Examples.E_scanned (lit "Report")) Examples.doc_path ++
       EvOcr Examples.doc_path Examples.temp_pdf :: rest).
Proof.
  split.
  - apply (ocr_fallback_ordering (Examples.E_title (lit "Report")) Examples.doc_path
             Examples.api_key Examples.model false Examples.w_docs
             (Completed 0 Examples.page_text []) eq_refl); [reflexivity | vm_compute; lia].
  - destruct (ocr_fallback_ordering (Examples.E_scanned (lit "Report")) Examples.doc_path
                Examples.api_key Examples.model false Examples.w_docs
                (Completed 0 [] []) eq_refl) as [_ H].
    destruct H as [rest [H _]]; [vm_compute; lia|].
    exists rest. exact H.
Defined.

(** C7. The destination lies in the directory of the document and is named
    by the sanitized title followed by [.pdf]; when a file is already
    there, rename_pdf returns after logging the skip, no call of [os.rename]
    is made, and the filesystem, hence the source and the file at the
    destination, is what it was. *)
Theorem rename_skips_existing_destination (E : env) (pdf_path api_key model : list N)
    (w w1 w2 : world) (pdf_text new_title : list N) :
  extract_text_from_first_page E pdf_path w = (Ret pdf_text, w1) -> pdf_text <> [] ->
  generate_title_with_gemini E pdf_text api_key model w1 = (Ret new_title, w2) ->
  new_title <> [] ->
  is_Some (fs w !! new_path_of pdf_path new_title) ->
  Posixpath.dirname (new_path_of pdf_path new_title) = Posixpath.dirname pdf_path /\
  Posixpath.basename (new_path_of pdf_path new_title) = sanitize_filename new_title ++ lit ".pdf" /\
  rename_pdf E pdf_path api_key false model w =
    (Ret tt, World (fs w)
       (trace w2 ++ [EvLog WARNING (AlreadyExists (sanitize_filename new_title ++ lit ".pdf"))])) /\
  List.filter is_mutation (trace w2) = List.filter is_mutation (trace w).
Proof.
  intros Hx Hne Hg Hnt Hex.
  destruct (new_path_in_directory pdf_path new_title) as [Hd Hb].
  split; [exact Hd|]. split; [exact Hb|]. split.
  - apply (rename_pdf_exists E pdf_path api_key model w w1 w2 pdf_text new_title); assumption.
  - apply (stage_frame E pdf_path api_key model w w1 w2 pdf_text new_title); assumption.
Qed.

Lemma rename_skips_existing_destination_witness :
  Posixpath.dirname (new_path_of Examples.doc_path (lit "Smith&Dong-2023-NeuralNets")) =
    Posixpath.dirname Examples.doc_path /\
  Posixpath.basename (new_path_of Examples.doc_path (lit "Smith&Dong-2023-NeuralNets")) =
    sanitize_filename (lit "Smith&Dong-2023-NeuralNets") ++ lit ".pdf" /\
  rename_pdf (Examples.E_title (lit "Smith&Dong-2023-NeuralNets")) Examples.doc_path
    Examples.api_key false Examples.model Examples.w_taken =
    (Ret tt, World (fs Examples.w_taken)
       (trace (Examples.after_generate Examples.doc_path Examples.w_taken) ++
        [EvLog WARNING (AlreadyExists (sanitize_filename (lit "Smith&Dong-2023-NeuralNets") ++ lit ".pdf"))])) /\
  List.filter is_mutation (trace (Examples.after_generate Examples.doc_path Examples.w_taken)) =
    List.filter is_mutation (trace Examples.w_taken).
Proof.
  apply (rename_skips_existing_destination (Examples.E_title (lit "Smith&Dong-2023-NeuralNets"))
           Examples.doc_path Examples.api_key Examples.model Examples.w_taken
           (Examples.after_extract Examples.doc_path Examples.w_taken)
           (Examples.after_generate Examples.doc_path Examples.w_taken)
           Examples.page_text (lit "Smith&Dong-2023-NeuralNets")).
  - reflexivity.
  - discriminate.
  - vm_compute. reflexivity.
  - discriminate.
  - vm_compute. eexists. reflexivity.
Defined.

(** C10. When the destination computed from the title is the path of the
    document itself and the document exists, rename_pdf takes the branch of
    the existing destination: it logs the skip, calls [os.rename] not at
    all, reports no rename, and leaves the filesystem as it was. The same
    holds of a dry run, which stops before that branch. *)
Theorem correctly_named_document_is_skipped (E : env) (pdf_path api_key model : list N)
    (w w1 w2 : world) (pdf_text new_title : list N) :
  extract_text_from_first_page E pdf_path w = (Ret pdf_text, w1) -> pdf_text <> [] ->
  generate_title_with_gemini E pdf_text api_key model w1 = (Ret new_title, w2) ->
  new_title <> [] ->
  new_path_of pdf_path new_title = pdf_path ->
  is_Some (fs w !! pdf_path) ->
  rename_pdf E pdf_path api_key false model w =
    (Ret tt, World (fs w)
       (trace w2 ++ [EvLog WARNING (AlreadyExists (sanitized_title_of new_title))])) /\
  forall dry_run,
    fs (snd (rename_pdf E pdf_path api_key dry_run model w)) = fs w /\
    List.filter is_mutation (trace (snd (rename_pdf E pdf_path api_key dry_run model w))) =
      List.filter is_mutation (trace w).
Proof.
  intros Hx Hne Hg Hnt Hsame Hsrc.
  assert (Hr : rename_pdf E pdf_path api_key false model w =
    (Ret tt, World (fs w)
       (trace w2 ++ [EvLog WARNING (AlreadyExists (sanitized_title_of new_title))]))).
  { apply (rename_pdf_exists E pdf_path api_key model w w1 w2 pdf_text new_title); try assumption.
    rewrite Hsame. exact Hsrc. }
  pose proof (rename_pdf_dry_run E pdf_path api_key model w w1 w2 pdf_text new_title
                Hx Hne Hg Hnt) as Hd.
  destruct (stage_frame E pdf_path api_key model w w1 w2 pdf_text new_title Hx Hg) as [_ Hm].
  split; [exact Hr|].
  intros [|]; [rewrite Hd | rewrite Hr]; simpl; (split; [reflexivity|]);
    rewrite List.filter_app; simpl; rewrite app_nil_r; exact Hm.
Qed.

Lemma correctly_named_document_is_skipped_witness :
  rename_pdf (Examples.E_title (lit "Smith&Dong-2023-NeuralNets")) Examples.named_path
    Examples.api_key false Examples.model Examples.w_named =
    (Ret tt, World (fs Examples.w_named)
       (trace (Examples.after_generate Examples.named_path Examples.w_named) ++
        [EvLog WARNING (AlreadyExists (sanitized_title_of (lit "Smith&Dong-2023-NeuralNets")))])) /\
  forall dry_run,
    fs (snd (rename_pdf (Examples.E_title (lit "Smith&Dong-2023-NeuralNets"))
               Examples.named_path Examples.api_key dry_run Examples.model Examples.w_named)) =
      fs Examples.w_named /\
    List.filter is_mutation
      (trace (snd (rename_pdf (Examples.E_title (lit "Smith&Dong-2023-NeuralNets"))
                     Examples.named_path Examples.api_key dry_run Examples.model Examples.w_named))) =
      List.filter is_mutation (trace Examples.w_named).
Proof.
  apply (correctly_named_document_is_skipped (Examples.E_title (lit "Smith&Dong-2023-NeuralNets"))
           Examples.named_path Examples.api_key Examples.model Examples.w_named
           (Examples.after_extract Examples.named_path Examples.w_named)
           (Examples.after_generate Examples.named_path Examples.w_named)
           Examples.page_text (lit "Smith&Dong-2023-NeuralNets")).
  - reflexivity.
  - discriminate.
  - vm_compute. reflexivity.
  - discriminate.
  - reflexivity.
  - vm_compute. eexists. reflexivity.
Defined.




(** C2 (amended). The generator has no case for [Insufficient-Content]:
    whichever attempt of a call is answered with status 200 and exactly that
    text, the first one or one that follows retried transport errors, the
    generator returns the string as the title. When the run is not a dry
    run, the document exists, no file named [Insufficient-Content.pdf] is
    in its directory and the operating system does not refuse the rename,
    rename_pdf renames the document to that name. *)
Theorem sentinel_is_used_as_title (E : env) (pdf_path api_key model : list N)
    (w w1 : world) (pdf_text content : list N) (r : response) (body : json) (k : nat) :
  extract_text_from_first_page E pdf_path w = (Ret pdf_text, w1) -> pdf_text <> [] ->
  (k < 3)%nat ->
  (forall j, (j < k)%nat ->
     exists e, post E (posts_so_far w1 + j) model api_key (prompt ++ [10] ++ pdf_text) = Raise e
               /\ is_RequestException e = true) ->
  post E (posts_so_far w1 + k) model api_key (prompt ++ [10] ++ pdf_text) = Ret r ->
  status_code r = 200%Z ->
  json_body r = Ret body ->
  candidates_text body = Some (lit "Insufficient-Content") ->
  fs w !! pdf_path = Some content ->
  fs w !! Posixpath.join (Posixpath.dirname pdf_path) (lit "Insufficient-Content.pdf") = None ->
  rename_refused E pdf_path
    (Posixpath.join (Posixpath.dirname pdf_path) (lit "Insufficient-Content.pdf")) = None ->
  generate_title_with_gemini E pdf_text api_key model w1 =
    (Ret (lit "Insufficient-Content"),
     World (fs w1)
       (trace w1 ++ attempts (EvPost model api_key (prompt ++ [10] ++ pdf_text)) k)) /\
  rename_pdf E pdf_path api_key false model w =
    (Ret tt,
     World (<[Posixpath.join (Posixpath.dirname pdf_path) (lit "Insufficient-Content.pdf") := content]>
              (delete pdf_path (fs w)))
       (trace w1 ++
        attempts (EvPost model api_key (prompt ++ [10] ++ pdf_text)) k ++
        [EvRename pdf_path
           (Posixpath.join (Posixpath.dirname pdf_path) (lit "Insufficient-Content.pdf"));
         EvLog INFO (RenamedTo
           (Posixpath.join (Posixpath.dirname pdf_path) (lit "Insufficient-Content.pdf")))])).
Proof.
  intros Hx Hne Hk Herr Hp Hs Hj Hc Hsrc Hdst Hok.
  assert (Hg : generate_title_with_gemini E pdf_text api_key model w1 =
    (Ret (lit "Insufficient-Content"),
     World (fs w1)
       (trace w1 ++ attempts (EvPost model api_key (prompt ++ [10] ++ pdf_text)) k))).
  { destruct (generate_after_transport_errors E pdf_text api_key model w1 k Hk Herr)
      as [-> Hposts].
    rewrite <- Hposts in Hp.
    rewrite (retry_from_ret _ _ _ _ _ _ _ _ _
               (generate_title_body_text E pdf_text api_key model _ r body _ Hp Hs Hj Hc)).
    cbn [fs trace]. rewrite (attempts_trace _ []), app_nil_r. reflexivity. }
  split; [exact Hg|].
  assert (Hnew : new_path_of pdf_path (lit "Insufficient-Content") =
                 Posixpath.join (Posixpath.dirname pdf_path) (lit "Insufficient-Content.pdf"))
    by reflexivity.
  rewrite (rename_pdf_renames E pdf_path api_key model w w1 _ pdf_text
             (lit "Insufficient-Content") content Hx Hne Hg);
    [| discriminate | exact Hsrc | rewrite Hnew; exact Hdst | rewrite Hnew; exact Hok].
  rewrite Hnew. cbn [trace]. rewrite <- app_assoc. reflexivity.
Qed.

Lemma sentinel_is_used_as_title_witness :
  generate_title_with_gemini (MoreExamples.E_flaky (lit "Insufficient-Content"))
    Examples.page_text Examples.api_key Examples.model
    (Examples.after_extract Examples.doc_path Examples.w_docs) =
    (Ret (lit "Insufficient-Content"),
     World (fs (Examples.after_extract Examples.doc_path Examples.w_docs))
       (trace (Examples.after_extract Examples.doc_path Examples.w_docs) ++
        attempts (EvPost Examples.model Examples.api_key (prompt ++ [10] ++ Examples.page_text)) 1)) /\
  rename_pdf (MoreExamples.E_flaky (lit "Insufficient-Content")) Examples.doc_path
    Examples.api_key false Examples.model Examples.w_docs =
    (Ret tt,
     World (<[Posixpath.join (Posixpath.dirname Examples.doc_path) (lit "Insufficient-Content.pdf")
              := lit "%PDF-1.7"]> (delete Examples.doc_path (fs Examples.w_docs)))
       (trace (Examples.after_extract Examples.doc_path Examples.w_docs) ++
        attempts (EvPost Examples.model Examples.api_key (prompt ++ [10] ++ Examples.page_text)) 1 ++
        [EvRename Examples.doc_path
           (Posixpath.join (Posixpath.dirname Examples.doc_path) (lit "Insufficient-Content.pdf"));
         EvLog INFO (RenamedTo
           (Posixpath.join (Posixpath.dirname Examples.doc_path) (lit "Insufficient-Content.pdf")))])).
Proof.
  apply (sentinel_is_used_as_title (MoreExamples.E_flaky (lit "Insufficient-Content"))
           Examples.doc_path Examples.api_key Examples.model Examples.w_docs
           (Examples.after_extract Examples.doc_path Examples.w_docs)
           Examples.page_text (lit "%PDF-1.7")
           (Examples.ok_response (lit "Insufficient-Content"))
           (Examples.body_with (lit "Insufficient-Content")) 1).
  - reflexivity.
  - discriminate.
  - lia.
  - intros j Hj. exists RequestsConnectionError.
    assert (j = 0)%nat as -> by lia. split; reflexivity.
  - reflexivity.
  - reflexivity.
  - reflexivity.
  - reflexivity.
  - vm_compute. reflexivity.
  - vm_compute. reflexivity.
  - reflexivity.
Defined.

(** C2 (as stated) fails: the service answers [Insufficient-Content] with
    status 200, and the run ends with the document renamed to
    [/docs/Insufficient-Content.pdf]; no record of a missing title is
    logged. *)
Lemma sentinel_is_not_normalized :
  candidates_text (Examples.body_with (lit "Insufficient-Content")) =
    Some (lit "Insufficient-Content") /\
  fst (generate_title_with_gemini (Examples.E_title (lit "Insufficient-Content"))
         Examples.page_text Examples.api_key Examples.model
         (Examples.after_extract Examples.doc_path Examples.w_docs)) <> Ret [] /\
  fs (snd (rename_pdf (Examples.E_title (lit "Insufficient-Content")) Examples.doc_path
             Examples.api_key false Examples.model Examples.w_docs)) =
    {[ lit "/docs/Insufficient-Content.pdf" := lit "%PDF-1.7" ]} /\
  List.filter is_log
    (trace (snd (rename_pdf (Examples.E_title (lit "Insufficient-Content")) Examples.doc_path
                   Examples.api_key false Examples.model Examples.w_docs))) =
    [EvLog INFO (RenamedTo (lit "/docs/Insufficient-Content.pdf"))].
Proof.
  split; [reflexivity|]. split; [vm_compute; discriminate|].
  split; vm_compute; reflexivity.
Qed.

(** * Further properties of the code *)

(** ** The sanitizer and the file name *)

Lemma strip_chars_idempotent (p : N -> bool) (s : list N) :
  strip_chars p (strip_chars p s) = strip_chars p s.
Proof.
  apply strip_chars_id.
  - unfold strip_chars.
    destruct (rstrip_split p (lstrip p s)) as [suf [Hs _]].
    pose proof (drop_while_head p s) as Hh. fold (lstrip p s) in Hh.
    destruct (rstrip p (lstrip p s)) as [|c t]; [exact I|].
    rewrite Hs in Hh. exact Hh.
  - unfold strip_chars, rstrip. rewrite rev_involutive. apply drop_while_head.
Qed.

Lemma single_underscores_no_pair (s pre post : list N) :
  single_underscores s = true -> s <> pre ++ underscore :: underscore :: post.
Proof.
  intros H ->. apply single_underscores_app_r in H. simpl in H. discriminate.
Qed.

(** X1. Whatever the title, the name that the sanitizer returns holds no two
    underscores in a row and does not begin with an underscore. *)
Theorem sanitize_filename_underscores (x pre post t : list N) :
  sanitize_filename x <> pre ++ underscore :: underscore :: post /\
  sanitize_filename x <> underscore :: t.
Proof.
  split.
  - apply single_underscores_no_pair, sanitize_filename_single_underscores.
  - intros H. pose proof (sanitize_filename_not_starting x) as Hs.
    rewrite H in Hs. discriminate.
Qed.

(** X2. A title that is not empty, has at most 150 characters, none of them
    forbidden, no two underscores in a row, no underscore and no whitespace
    at either end is returned as it is. *)
Theorem sanitize_filename_keeps_well_formed (t : list N) :
  well_formed_title t -> sanitize_filename t = t.
Proof.
  intros (Hne & Hlen & Hclean & Hsingle & Hstrip & Hstart & Hend).
  apply sanitize_filename_fixed_point; assumption.
Qed.

Lemma sanitize_filename_keeps_well_formed_witness :
  sanitize_filename (lit "Bank-Statement_HSBC Nov2023") = lit "Bank-Statement_HSBC Nov2023".
Proof.
  apply sanitize_filename_keeps_well_formed.
  unfold well_formed_title.
  split; [discriminate|]. split; [vm_compute; lia|].
  split; [unfold clean; repeat constructor|].
  repeat split; reflexivity.
Defined.

Lemma sub_underscores_all (s : list N) :
  forallb is_underscore s = true -> forallb is_underscore (sub_underscores s) = true.
Proof.
  induction s as [|c t IH]; simpl; [reflexivity|].
  intros H. apply andb_true_iff in H as [Hc Ht].
  destruct (is_underscore c && starts_with_char underscore t); [apply IH, Ht|].
  simpl. rewrite Hc, (IH Ht). reflexivity.
Qed.

Lemma drop_while_all {A} (p : A -> bool) (s : list A) :
  forallb p s = true -> drop_while p s = [].
Proof.
  induction s as [|c t IH]; simpl; [reflexivity|].
  intros H. apply andb_true_iff in H as [Hc Ht]. rewrite Hc. apply IH, Ht.
Qed.

(** X3. A title that, once trimmed, is made of forbidden characters and
    underscores only is replaced by the placeholder of the code,
    [untitled.pdf]. *)
Theorem sanitize_filename_nothing_left (title : list N) :
  forallb (fun c => invalid_char c || is_underscore c) (strip title) = true ->
  sanitize_filename title = lit "untitled.pdf".
Proof.
  intros H. apply sanitize_filename_placeholder. right.
  assert (Hall : forallb is_underscore (sub_invalid (strip title)) = true).
  { unfold sub_invalid. induction (strip title) as [|c t IH]; simpl in *; [reflexivity|].
    apply andb_true_iff in H as [Hc Ht]. rewrite (IH Ht), andb_true_r.
    destruct (invalid_char c); [reflexivity | exact Hc]. }
  apply sub_underscores_all in Hall.
  unfold strip_chars, lstrip. rewrite (drop_while_all _ _ Hall). reflexivity.
Qed.

Lemma sanitize_filename_nothing_left_witness :
  sanitize_filename (lit "  <?>__*:  ") = lit "untitled.pdf".
Proof. apply sanitize_filename_nothing_left. reflexivity. Defined.

Lemma is_prefix_app (a s : list N) : is_prefix a (a ++ s) = true.
Proof.
  induction a as [|x a IH]; simpl; [reflexivity|].
  rewrite N.eqb_refl, IH. reflexivity.
Qed.

(** X4. The name under which lines 143-144 place the document ends with
    [.pdf], has between 5 and 154 characters and holds none of the forbidden
    characters, whatever the title and the path of the document. *)
Theorem new_file_name_is_portable (pdf_path new_title : list N) :
  endswith (Posixpath.basename (new_path_of pdf_path new_title)) (lit ".pdf") = true /\
  (5 <= length (Posixpath.basename (new_path_of pdf_path new_title)) <= 154)%nat /\
  (forall c, In c (Posixpath.basename (new_path_of pdf_path new_title)) ->
             invalid_char c = false).
Proof.
  destruct (new_path_in_directory pdf_path new_title) as [_ ->].
  split; [|split].
  - unfold endswith. rewrite rev_app_distr. apply is_prefix_app.
  - rewrite length_app. pose proof (sanitize_filename_length new_title).
    pose proof (sanitize_filename_nonempty new_title) as Hne.
    destruct (sanitize_filename new_title); [contradiction|]. simpl in *. lia.
  - intros c Hc. apply in_app_or in Hc as [Hc | Hc].
    + pose proof (sanitize_filename_clean new_title) as H. unfold clean in H.
      rewrite List.Forall_forall in H. apply H, Hc.
    + simpl in Hc. repeat (destruct Hc as [<- | Hc]; [reflexivity|]). contradiction.
Qed.

(** ** The events that each stage can add *)

Section OnlyEmits.
Context {A : Type} (P : event -> bool).

Lemma only_emits_ret (a : A) : only_emits P (ret a).
Proof. intros w. split; [reflexivity|]. exists []. rewrite app_nil_r. split; reflexivity. Qed.

Lemma only_emits_raise (e : exn) : only_emits P (@raise A e).
Proof. intros w. split; [reflexivity|]. exists []. rewrite app_nil_r. split; reflexivity. Qed.

Lemma only_emits_lift (r : res A) : only_emits P (lift r).
Proof. intros w. split; [reflexivity|]. exists []. rewrite app_nil_r. split; reflexivity. Qed.

Lemma only_emits_bind {B} (m : M B) (k : B -> M A) :
  only_emits P m -> (forall b, only_emits P (k b)) -> only_emits P (bind m k).
Proof.
  intros Hm Hk w. unfold bind.
  destruct (Hm w) as [Hfs [tr [Htr Hall]]].
  destruct (m w) as [[b|e] w1]; simpl in *.
  - destruct (Hk b w1) as [Hfs' [tr' [Htr' Hall']]].
    split; [congruence|]. exists (tr ++ tr').
    rewrite Htr', Htr, <- app_assoc, forallb_app, Hall, Hall'. split; reflexivity.
  - split; [exact Hfs|]. exists tr. split; assumption.
Qed.

Lemma only_emits_try_except (m : M A) (h : exn -> option (M A)) :
  only_emits P m -> (forall e k, h e = Some k -> only_emits P k) ->
  only_emits P (try_except m h).
Proof.
  intros Hm Hh w. unfold try_except.
  destruct (Hm w) as [Hfs [tr [Htr Hall]]].
  destruct (m w) as [[a|e] w1]; simpl in *.
  - split; [exact Hfs|]. exists tr. split; assumption.
  - destruct (h e) as [k|] eqn:He; simpl.
    + destruct (Hh e k He w1) as [Hfs' [tr' [Htr' Hall']]].
      split; [congruence|]. exists (tr ++ tr').
      rewrite Htr', Htr, <- app_assoc, forallb_app, Hall, Hall'. split; reflexivity.
    + split; [exact Hfs|]. exists tr. split; assumption.
Qed.

Lemma only_emits_with_tempdir (E : env) (body : list N -> M A) :
  P (EvMkdtemp (tempdir E)) = true -> P (EvRmtree (tempdir E)) = true ->
  (forall d, only_emits P (body d)) -> only_emits P (with_tempdir E body).
Proof.
  intros Hmk Hrm Hb w. unfold with_tempdir, bind, emit.
  destruct (Hb (tempdir E) (World (fs w) (trace w ++ [EvMkdtemp (tempdir E)])))
    as [Hfs [tr [Htr Hall]]].
  destruct (body (tempdir E) _) as [r w1]; simpl in *.
  split; [exact Hfs|].
  exists ([EvMkdtemp (tempdir E)] ++ tr ++ [EvRmtree (tempdir E)]).
  rewrite Htr, <- !app_assoc. split; [reflexivity|].
  simpl. rewrite Hmk, forallb_app, Hall. simpl. rewrite Hrm. reflexivity.
Qed.

Lemma only_emits_retry_from (stop : nat -> bool) (wait : nat -> N) (retry_if : exn -> bool)
    (f : M A) (budget attempt_number : nat) :
  (forall n, P (EvSleep (wait n)) = true) ->
  only_emits P f -> only_emits P (retry_from stop wait retry_if f budget attempt_number).
Proof.
  intros Hsleep Hf. revert attempt_number.
  induction budget as [|budget IH]; intros n w; simpl;
    destruct (Hf w) as [Hfs [tr [Htr Hall]]];
    destruct (f w) as [[a|e] w1]; simpl in *;
    try (split; [exact Hfs|]; exists tr; split; assumption);
    destruct (retry_if e); try (split; [exact Hfs|]; exists tr; split; assumption);
    destruct (stop n); try (split; [exact Hfs|]; exists tr; split; assumption).
  unfold bind, emit. simpl.
  destruct (IH (S n) (World (fs w1) (trace w1 ++ [EvSleep (wait n)])))
    as [Hfs' [tr' [Htr' Hall']]]. simpl in *.
  split; [congruence|].
  exists (tr ++ [EvSleep (wait n)] ++ tr').
  rewrite Htr', Htr, <- !app_assoc. split; [reflexivity|].
  rewrite forallb_app, Hall. simpl. rewrite Hsleep. exact Hall'.
Qed.

Lemma only_emits_weaken (Q : event -> bool) (m : M A) :
  (forall ev, P ev = true -> Q ev = true) -> only_emits P m -> only_emits Q m.
Proof.
  intros HPQ Hm w. destruct (Hm w) as [Hfs [tr [Htr Hall]]].
  split; [exact Hfs|]. exists tr. split; [exact Htr|].
  rewrite forallb_forall in *. intros ev Hev. apply HPQ, Hall, Hev.
Qed.

End OnlyEmits.

Lemma only_emits_emit (P : event -> bool) (ev : event) :
  P ev = true -> only_emits P (emit ev).
Proof.
  intros H w. split; [reflexivity|]. exists [ev]. split; [reflexivity|].
  simpl. rewrite H. reflexivity.
Qed.

Ltac emits_step :=
  match goal with
  | |- only_emits _ (bind _ _) => apply only_emits_bind; [|intros ?]
  | |- only_emits _ (ret _) => apply only_emits_ret
  | |- only_emits _ (raise _) => apply only_emits_raise
  | |- only_emits _ (lift _) => apply only_emits_lift
  | |- only_emits _ (log _ _) => apply only_emits_emit; reflexivity
  | |- only_emits _ (emit _) => apply only_emits_emit; reflexivity
  | |- only_emits _ (with_tempdir _ _) =>
      apply only_emits_with_tempdir; [reflexivity | reflexivity | intros ?]
  | |- only_emits _ (retry_from _ _ _ _ _ _) =>
      apply only_emits_retry_from; [intros ?; reflexivity|]
  | |- only_emits _ (try_except _ _) =>
      apply only_emits_try_except;
      [| let e := fresh "e" in let k := fresh "k" in let H := fresh "H" in
         intros e k H; destruct e; inversion H; subst; clear H]
  | |- only_emits _ (if ?b then _ else _) => destruct b
  | |- only_emits _ (match ?x with _ => _ end) => destruct x
  end.

Lemma only_emits_extract (E : env) (pdf_path : list N) :
  only_emits acquisition_event (extract_text_from_first_page E pdf_path).
Proof.
  unfold extract_text_from_first_page, ocrmypdf_ocr, run_pdftotext.
  repeat emits_step.
Qed.

Lemma only_emits_generate (E : env) (pdf_text api_key model : list N) :
  only_emits generation_event (generate_title_with_gemini E pdf_text api_key model).
Proof.
  unfold generate_title_with_gemini. apply only_emits_retry_from; [intros ?; reflexivity|].
  unfold generate_title_body.
  apply only_emits_bind; [|intros ?; repeat emits_step].
  intros w. unfold requests_post.
  apply (only_emits_bind generation_event (emit (EvPost model api_key (prompt ++ [10] ++ pdf_text))));
    [|intros ?]; repeat emits_step.
Qed.

(** X5. The text acquisition never sends a request, never sleeps and never
    renames: on every run, with any collaborators, the files stay as they
    are and the events it adds are runs of pdftotext, the creation and the
    removal of the temporary directory, the call of the OCR and its own six
    log records. *)
Theorem extract_text_effects (E : env) (pdf_path : list N) (w : world) :
  fs (snd (extract_text_from_first_page E pdf_path w)) = fs w /\
  exists tr,
    trace (snd (extract_text_from_first_page E pdf_path w)) = trace w ++ tr /\
    forallb acquisition_event tr = true /\
    List.filter is_post tr = [] /\ List.filter is_mutation tr = [].
Proof.
  destruct (only_emits_extract E pdf_path w) as [Hfs [tr [Htr Hall]]].
  split; [exact Hfs|]. exists tr. split; [exact Htr|]. split; [exact Hall|].
  clear Htr. induction tr as [|ev tr IH]; simpl in *; [split; reflexivity|].
  apply andb_true_iff in Hall as [Hev Htl]. destruct (IH Htl) as [-> ->].
  destruct ev as [| | | | | | |? []]; simpl in *; try discriminate; split; reflexivity.
Qed.

(** X6. The generator never launches a process, never touches a temporary
    directory and never renames: on every run the files stay as they are
    and the events it adds are requests, sleeps and its own three log
    records. *)
Theorem generate_title_effects (E : env) (pdf_text api_key model : list N) (w : world) :
  fs (snd (generate_title_with_gemini E pdf_text api_key model w)) = fs w /\
  exists tr,
    trace (snd (generate_title_with_gemini E pdf_text api_key model w)) = trace w ++ tr /\
    forallb generation_event tr = true /\
    List.filter is_ocr tr = [] /\ List.filter is_mutation tr = [].
Proof.
  destruct (only_emits_generate E pdf_text api_key model w) as [Hfs [tr [Htr Hall]]].
  split; [exact Hfs|]. exists tr. split; [exact Htr|]. split; [exact Hall|].
  clear Htr. induction tr as [|ev tr IH]; simpl in *; [split; reflexivity|].
  apply andb_true_iff in Hall as [Hev Htl]. destruct (IH Htl) as [-> ->].
  destruct ev as [| | | | | | |? []]; simpl in *; try discriminate; split; reflexivity.
Qed.

(** ** The paths of the text acquisition *)

Ltac unfold_extract :=
  unfold extract_text_from_first_page, bind, try_except, run_pdftotext, bind, emit, lift,
    with_tempdir, ocrmypdf_ocr, bind, emit, lift, log, emit;
  cbv beta iota zeta.

Section ExtractPaths.
Variables (E : env) (pdf_path : list N) (w : world).

(** X7. When pdftotext is not installed, the text acquisition logs the
    error and returns the empty text at once: the OCR is not tried, and
    rename_pdf logs that no text was extracted without sending a request. *)
Theorem missing_pdftotext_gives_no_text (api_key model : list N) (dry_run : bool) :
  pdftotext E pdf_path = Raise FileNotFoundError ->
  extract_text_from_first_page E pdf_path w =
    (Ret [], World (fs w) (trace w ++ [EvPdftotext pdf_path; EvLog ERROR PdftotextNotFound])) /\
  rename_pdf E pdf_path api_key dry_run model w =
    (Ret tt, World (fs w) (trace w ++ [EvPdftotext pdf_path; EvLog ERROR PdftotextNotFound;
                                       EvLog WARNING NoTextExtracted])).
Proof.
  intros H.
  assert (Hx : extract_text_from_first_page E pdf_path w =
    (Ret [], World (fs w) (trace w ++ [EvPdftotext pdf_path; EvLog ERROR PdftotextNotFound]))).
  { unfold_extract. rewrite H. unfold ret. simpl. rewrite <- app_assoc. reflexivity. }
  split; [exact Hx|].
  unfold rename_pdf. unfold bind at 1. rewrite Hx. simpl.
  unfold log, emit. simpl. rewrite <- app_assoc. reflexivity.
Qed.

(** X8. When pdftotext times out on the document, the warning is logged and
    the fallback runs: the OCR is called on the document. *)
Theorem pdftotext_timeout_falls_back :
  pdftotext E pdf_path = Raise TimeoutExpired ->
  exists r rest,
    extract_text_from_first_page E pdf_path w =
    (r, World (fs w)
          (trace w ++ [EvPdftotext pdf_path; EvLog WARNING (PdftotextTimedOut pdf_path);
                       EvLog INFO FallbackToOcr; EvMkdtemp (tempdir E);
                       EvOcr pdf_path (Posixpath.join (tempdir E) (lit "ocr_output.pdf"))]
                   ++ rest)).
Proof.
  intros H. unfold_extract. rewrite H. unfold ret. simpl.
  destruct (ocr E pdf_path) as [[]|e]; simpl.
  - destruct (pdftotext E (Posixpath.join (tempdir E) (lit "ocr_output.pdf"))) as [c2|e2]; simpl.
    + destruct (returncode c2 =? 0)%Z; simpl;
        eexists _, _; repeat rewrite <- app_assoc; simpl; reflexivity.
    + destruct e2; simpl; eexists _, _; repeat rewrite <- app_assoc; simpl; reflexivity.
  - destruct e; simpl; eexists _, _; repeat rewrite <- app_assoc; simpl; reflexivity.
Qed.




End ExtractPaths.

Lemma missing_pdftotext_gives_no_text_witness :
  extract_text_from_first_page MoreExamples.E_no_tool Examples.doc_path Examples.w_docs =
    (Ret [], World (fs Examples.w_docs)
       (trace Examples.w_docs ++
        [EvPdftotext Examples.doc_path; EvLog ERROR PdftotextNotFound])) /\
  rename_pdf MoreExamples.E_no_tool Examples.doc_path Examples.api_key false Examples.model
    Examples.w_docs =
    (Ret tt, World (fs Examples.w_docs)
       (trace Examples.w_docs ++
        [EvPdftotext Examples.doc_path; EvLog ERROR PdftotextNotFound;
         EvLog WARNING NoTextExtracted])).
Proof.
  apply (missing_pdftotext_gives_no_text MoreExamples.E_no_tool). reflexivity.
Defined.

Lemma pdftotext_timeout_falls_back_witness :
  exists r rest,
    extract_text_from_first_page MoreExamples.E_slow Examples.doc_path Examples.w_docs =
    (r, World (fs Examples.w_docs)
          (trace Examples.w_docs ++
           [EvPdftotext Examples.doc_path; EvLog WARNING (PdftotextTimedOut Examples.doc_path);
            EvLog INFO FallbackToOcr; EvMkdtemp (tempdir MoreExamples.E_slow);
            EvOcr Examples.doc_path
              (Posixpath.join (tempdir MoreExamples.E_slow) (lit "ocr_output.pdf"))]
           ++ rest)).
Proof.
  apply (pdftotext_timeout_falls_back MoreExamples.E_slow). reflexivity.
Defined.






(** X13. On every run of the text acquisition, whatever the collaborators
    return or raise, either no temporary directory is created and the OCR
    is not called, or the directory is created, the OCR is called once and
    the directory is removed, in that order: no way out of the function
    leaves the directory behind. *)
Theorem temporary_directory_is_always_removed (E : env) (pdf_path : list N) (w : world) :
  exists tr,
    trace (snd (extract_text_from_first_page E pdf_path w)) = trace w ++ tr /\
    (List.filter (fun ev => is_tempdir ev || is_ocr ev) tr = [] \/
     List.filter (fun ev => is_tempdir ev || is_ocr ev) tr =
       [EvMkdtemp (tempdir E);
        EvOcr pdf_path (Posixpath.join (tempdir E) (lit "ocr_output.pdf"));
        EvRmtree (tempdir E)]).
Proof.
  unfold_extract.
  destruct (pdftotext E pdf_path) as [c|e1].
  2:{ destruct e1; unfold ret; simpl;
        try (eexists; split; [repeat rewrite <- app_assoc; simpl; reflexivity | left; reflexivity]).
      destruct (ocr E pdf_path) as [[]|e2]; simpl.
      - destruct (pdftotext E (Posixpath.join (tempdir E) (lit "ocr_output.pdf")))
          as [c2|e3]; simpl.
        + destruct (returncode c2 =? 0)%Z; simpl;
            (eexists; split; [repeat rewrite <- app_assoc; simpl; reflexivity | right; reflexivity]).
        + destruct e3; simpl;
            (eexists; split; [repeat rewrite <- app_assoc; simpl; reflexivity | right; reflexivity]).
      - destruct e2; simpl;
          (eexists; split; [repeat rewrite <- app_assoc; simpl; reflexivity | right; reflexivity]). }
  cbv beta iota zeta.
  destruct ((returncode c =? 0)%Z); [destruct (50 <=? length (strip (stdout c)))%nat|];
    unfold ret; simpl;
    try (eexists; split; [repeat rewrite <- app_assoc; simpl; reflexivity | left; reflexivity]);
    (destruct (ocr E pdf_path) as [[]|e2]; simpl;
     [ destruct (pdftotext E (Posixpath.join (tempdir E) (lit "ocr_output.pdf")))
         as [c2|e3]; simpl;
       [ destruct (returncode c2 =? 0)%Z; simpl
       | destruct e3; simpl ]
     | destruct e2; simpl ];
     (eexists; split; [repeat rewrite <- app_assoc; simpl; reflexivity | right; reflexivity])).
Qed.

(** ** The attempts of the generator *)

Lemma logs_are_neither_posts_nor_sleeps (l : list event) :
  forallb is_log l = true -> List.filter is_post l = [] /\ List.filter is_sleep l = [].
Proof.
  induction l as [|ev l IH]; simpl; [split; reflexivity|].
  intros H. apply andb_true_iff in H as [Hev Hl]. destruct (IH Hl) as [-> ->].
  destruct ev; simpl in *; try discriminate. split; reflexivity.
Qed.

Section Attempts.
Variables (E : env) (pdf_text api_key model : list N).

(** One attempt sends one request and then only logs; the text it returns is
    trimmed. *)
Lemma generate_title_body_shape (w : world) :
  exists r logs,
    generate_title_body E pdf_text api_key model w =
      (r, World (fs w) (trace w ++ EvPost model api_key (prompt ++ [10] ++ pdf_text) :: logs)) /\
    forallb is_log logs = true /\
    (forall t, r = Ret t -> strip t = t).
Proof.
  destruct (post E (posts_so_far w) model api_key (prompt ++ [10] ++ pdf_text)) as [r|e] eqn:Hp.
  - destruct (Z.eq_dec (status_code r) 200%Z) as [H200|Hne].
    + assert (Hmal : malformed r ->
        exists r0 logs,
          generate_title_body E pdf_text api_key model w =
            (r0, World (fs w) (trace w ++ EvPost model api_key (prompt ++ [10] ++ pdf_text) :: logs)) /\
          forallb is_log logs = true /\ (forall t, r0 = Ret t -> strip t = t)).
      { intros Hm.
        destruct (generate_title_body_malformed E pdf_text api_key model w r Hp H200 Hm)
          as [logs [Hb Hl]].
        exists (Ret []), logs. split; [exact Hb|]. split; [exact Hl|].
        intros t Ht. injection Ht as <-. reflexivity. }
      destruct (json_body r) as [body|e] eqn:Hj.
      * destruct (candidates_text body) as [s|] eqn:Hc.
        -- exists (Ret (strip s)), []. split.
           ++ apply (generate_title_body_text E pdf_text api_key model w r body s); assumption.
           ++ split; [reflexivity|]. intros t Ht. injection Ht as <-.
              apply strip_chars_idempotent.
        -- apply Hmal. unfold malformed. rewrite Hj. exact Hc.
      * apply Hmal. unfold malformed. rewrite Hj. exact I.
    + eexists (Ret []), _. split.
      * apply generate_title_body_status; eassumption.
      * split; [reflexivity|]. intros t Ht. injection Ht as <-. reflexivity.
  - exists (Raise e), []. split.
    + apply generate_title_body_transport. exact Hp.
    + split; [reflexivity|]. intros t Ht. discriminate.
Qed.

Lemma generate_title_unrolled (w : world) :
  exists tr,
    trace (snd (generate_title_with_gemini E pdf_text api_key model w)) = trace w ++ tr /\
    (1 <= length (List.filter is_post tr) <= 3)%nat /\
    List.filter is_sleep tr = repeat (EvSleep 4) (length (List.filter is_post tr) - 1) /\
    (forall t, fst (generate_title_with_gemini E pdf_text api_key model w) = Ret t ->
               strip t = t).
Proof.
  unfold generate_title_with_gemini.
  set (P := EvPost model api_key (prompt ++ [10] ++ pdf_text)).
  destruct (generate_title_body_shape w) as (r1 & l1 & H1 & L1 & T1). fold P in H1.
  destruct (logs_are_neither_posts_nor_sleeps l1 L1) as [P1 S1].
  assert (Hone : exists tr,
    trace w ++ P :: l1 = trace w ++ tr /\
    (1 <= length (List.filter is_post tr) <= 3)%nat /\
    List.filter is_sleep tr = repeat (EvSleep 4) (length (List.filter is_post tr) - 1)).
  { exists (P :: l1). split; [reflexivity|]. simpl. rewrite P1, S1. simpl. split; [lia | reflexivity]. }
  destruct r1 as [t1|e1].
  { rewrite (retry_from_ret _ _ _ _ _ _ _ _ _ H1). simpl.
    destruct Hone as (tr & Htr & Hb & Hs). exists tr. repeat split; try assumption; try lia. }
  destruct (is_RequestException e1) eqn:R1.
  2:{ rewrite (retry_from_reraise _ _ _ _ _ _ _ _ _ H1 R1). simpl.
      destruct Hone as (tr & Htr & Hb & Hs). exists tr. repeat split; try assumption; try lia.
      all: try (intros t Ht; discriminate). }
  rewrite (retry_from_again (stop_after_attempt 3) (wait_exponential 1 4 10) _ _ 2 1 _ _ _ H1 R1 eq_refl). cbn [fs trace].
  change (wait_exponential 1 4 10 1) with 4.
  set (w1 := World (fs w) ((trace w ++ P :: l1) ++ [EvSleep 4])).
  destruct (generate_title_body_shape w1) as (r2 & l2 & H2 & L2 & T2). fold P in H2.
  destruct (logs_are_neither_posts_nor_sleeps l2 L2) as [P2 S2].
  assert (Htwo : exists tr,
    trace w1 ++ P :: l2 = trace w ++ tr /\
    (1 <= length (List.filter is_post tr) <= 3)%nat /\
    List.filter is_sleep tr = repeat (EvSleep 4) (length (List.filter is_post tr) - 1)).
  { exists (P :: l1 ++ EvSleep 4 :: P :: l2). split.
    - unfold w1. cbn [trace]. repeat rewrite <- app_assoc. reflexivity.
    - subst P. repeat (first [rewrite List.filter_app | progress simpl]).
      rewrite P1, S1, P2, S2. simpl. split; [lia | reflexivity]. }
  destruct r2 as [t2|e2].
  { rewrite (retry_from_ret _ _ _ _ _ _ _ _ _ H2). simpl.
    destruct Htwo as (tr & Htr & Hb & Hs). exists tr. repeat split; try assumption; try lia. }
  destruct (is_RequestException e2) eqn:R2.
  2:{ rewrite (retry_from_reraise _ _ _ _ _ _ _ _ _ H2 R2). simpl.
      destruct Htwo as (tr & Htr & Hb & Hs). exists tr. repeat split; try assumption; try lia.
      all: try (intros t Ht; discriminate). }
  rewrite (retry_from_again (stop_after_attempt 3) (wait_exponential 1 4 10) _ _ 1 2 _ _ _ H2 R2 eq_refl). cbn [fs trace].
  change (wait_exponential 1 4 10 2) with 4.
  set (w2 := World (fs w1) ((trace w1 ++ P :: l2) ++ [EvSleep 4])).
  destruct (generate_title_body_shape w2) as (r3 & l3 & H3 & L3 & T3). fold P in H3.
  destruct (logs_are_neither_posts_nor_sleeps l3 L3) as [P3 S3].
  assert (Hthree : exists tr,
    trace w2 ++ P :: l3 = trace w ++ tr /\
    (1 <= length (List.filter is_post tr) <= 3)%nat /\
    List.filter is_sleep tr = repeat (EvSleep 4) (length (List.filter is_post tr) - 1)).
  { exists (P :: l1 ++ EvSleep 4 :: P :: l2 ++ EvSleep 4 :: P :: l3). split.
    - unfold w2, w1. cbn [trace]. repeat rewrite <- app_assoc. simpl. repeat rewrite <- app_assoc. reflexivity.
    - subst P. repeat (first [rewrite List.filter_app | progress simpl]).
      rewrite P1, S1, P2, S2, P3, S3. simpl. split; [lia | reflexivity]. }
  destruct Hthree as (tr & Htr & Hb & Hs).
  destruct r3 as [t3|e3].
  { rewrite (retry_from_ret _ _ _ _ _ _ _ _ _ H3). simpl.
    exists tr. repeat split; try assumption; try lia. }
  destruct (is_RequestException e3) eqn:R3.
  - rewrite (retry_from_stop (stop_after_attempt 3) (wait_exponential 1 4 10) _ _ 1 3 _ _ _ H3 R3 eq_refl). simpl.
    exists tr. repeat split; try assumption; try lia. all: try (intros t Ht; discriminate).
  - rewrite (retry_from_reraise _ _ _ _ _ _ _ _ _ H3 R3). simpl.
    exists tr. repeat split; try assumption; try lia. all: try (intros t Ht; discriminate).
Qed.

End Attempts.

(** X14. A response with status 200 whose body holds a string at
    [candidates[0].content.parts[0].text] makes the generator return that
    string trimmed, after one request, without a sleep and without a log
    record. *)
Theorem generate_returns_trimmed_text (E : env) (pdf_text api_key model : list N)
    (w : world) (r : response) (body : json) (s : list N) :
  post E (posts_so_far w) model api_key (prompt ++ [10] ++ pdf_text) = Ret r ->
  status_code r = 200%Z ->
  json_body r = Ret body ->
  candidates_text body = Some s ->
  generate_title_with_gemini E pdf_text api_key model w =
    (Ret (strip s),
     World (fs w) (trace w ++ [EvPost model api_key (prompt ++ [10] ++ pdf_text)])).
Proof.
  intros Hp Hs Hj Hc. unfold generate_title_with_gemini. apply retry_from_ret.
  apply (generate_title_body_text E pdf_text api_key model w r body s); assumption.
Qed.

Lemma generate_returns_trimmed_text_witness :
  generate_title_with_gemini (Examples.E_title (lit "  Report 2023 ")) Examples.page_text
    Examples.api_key Examples.model Examples.w_docs =
    (Ret (strip (lit "  Report 2023 ")),
     World (fs Examples.w_docs)
       (trace Examples.w_docs ++
        [EvPost Examples.model Examples.api_key (prompt ++ [10] ++ Examples.page_text)])).
Proof.
  apply (generate_returns_trimmed_text (Examples.E_title (lit "  Report 2023 ")) _ _ _ _
           (Examples.ok_response (lit "  Report 2023 "))
           (Examples.body_with (lit "  Report 2023 "))); reflexivity.
Defined.

(** X15. An exception of the request that is no [RequestException] is not
    retried: it leaves the generator as it is after one request. *)
Theorem generate_reraises_other_exceptions (E : env) (pdf_text api_key model : list N)
    (w : world) (e : exn) :
  post E (posts_so_far w) model api_key (prompt ++ [10] ++ pdf_text) = Raise e ->
  is_RequestException e = false ->
  generate_title_with_gemini E pdf_text api_key model w =
    (Raise e, World (fs w) (trace w ++ [EvPost model api_key (prompt ++ [10] ++ pdf_text)])).
Proof.
  intros Hp He. unfold generate_title_with_gemini. apply retry_from_reraise; [|exact He].
  apply generate_title_body_transport, Hp.
Qed.

Lemma generate_reraises_other_exceptions_witness :
  generate_title_with_gemini MoreExamples.E_crash Examples.page_text
    Examples.api_key Examples.model Examples.w_docs =
    (Raise TypeError,
     World (fs Examples.w_docs)
       (trace Examples.w_docs ++
        [EvPost Examples.model Examples.api_key (prompt ++ [10] ++ Examples.page_text)])).
Proof.
  apply (generate_reraises_other_exceptions MoreExamples.E_crash); reflexivity.
Defined.

(** X16. Whatever the service does, one call of the generator sends at
    least one and at most three requests, and sleeps 4 time units between
    two requests and at no other time: the sleeps of a call are one fewer
    than its requests. *)
Theorem generate_sends_one_to_three_requests (E : env) (pdf_text api_key model : list N)
    (w : world) :
  exists tr,
    trace (snd (generate_title_with_gemini E pdf_text api_key model w)) = trace w ++ tr /\
    (1 <= length (List.filter is_post tr) <= 3)%nat /\
    List.filter is_sleep tr = repeat (EvSleep 4) (length (List.filter is_post tr) - 1).
Proof.
  destruct (generate_title_unrolled E pdf_text api_key model w) as (tr & H1 & H2 & H3 & _).
  exists tr. repeat split; try assumption; lia.
Qed.

(** X17. A title that the generator returns has no whitespace at either
    end: trimming it again changes nothing. *)
Theorem generated_title_is_trimmed (E : env) (pdf_text api_key model : list N)
    (w : world) (t : list N) :
  fst (generate_title_with_gemini E pdf_text api_key model w) = Ret t ->
  strip t = t.
Proof.
  destruct (generate_title_unrolled E pdf_text api_key model w) as (_ & _ & _ & _ & H).
  apply H.
Qed.

Lemma generated_title_is_trimmed_witness :
  strip (lit "Report 2023") = lit "Report 2023".
Proof.
  apply (generated_title_is_trimmed (Examples.E_title (lit "  Report 2023 ")) Examples.page_text
           Examples.api_key Examples.model Examples.w_docs).
  vm_compute. reflexivity.
Defined.

(** X18. When the first request of a call fails with a transport error and
    the second is answered with status 200 and a text, the generator sleeps
    4 time units between the two and returns the trimmed text. *)
Theorem generate_recovers_after_one_failure (E : env) (pdf_text api_key model : list N)
    (w : world) (e : exn) (r : response) (body : json) (s : list N) :
  post E (posts_so_far w) model api_key (prompt ++ [10] ++ pdf_text) = Raise e ->
  is_RequestException e = true ->
  post E (S (posts_so_far w)) model api_key (prompt ++ [10] ++ pdf_text) = Ret r ->
  status_code r = 200%Z ->
  json_body r = Ret body ->
  candidates_text body = Some s ->
  generate_title_with_gemini E pdf_text api_key model w =
    (Ret (strip s),
     World (fs w)
       (trace w ++ [EvPost model api_key (prompt ++ [10] ++ pdf_text); EvSleep 4;
                    EvPost model api_key (prompt ++ [10] ++ pdf_text)])).
Proof.
  intros Hp He Hp2 Hs Hj Hc. unfold generate_title_with_gemini.
  rewrite (retry_from_again (stop_after_attempt 3) (wait_exponential 1 4 10) _ _ 2 1 _ _ _
             (generate_title_body_transport E pdf_text api_key model w e Hp) He eq_refl).
  cbn [fs trace]. change (wait_exponential 1 4 10 1) with 4.
  erewrite retry_from_ret.
  2:{ apply (generate_title_body_text E pdf_text api_key model _ r body s); try assumption.
      rewrite <- app_assoc, posts_so_far_app. simpl.
      replace (posts_so_far (World (fs w) (trace w)) + 1)%nat with (S (posts_so_far w))
        by (destruct w; simpl; lia).
      exact Hp2. }
  cbn [fs trace]. repeat rewrite <- app_assoc. reflexivity.
Qed.

Lemma generate_recovers_after_one_failure_witness :
  generate_title_with_gemini (MoreExamples.E_flaky (lit "Report")) Examples.page_text
    Examples.api_key Examples.model Examples.w_docs =
    (Ret (strip (lit "Report")),
     World (fs Examples.w_docs)
       (trace Examples.w_docs ++
        [EvPost Examples.model Examples.api_key (prompt ++ [10] ++ Examples.page_text); EvSleep 4;
         EvPost Examples.model Examples.api_key (prompt ++ [10] ++ Examples.page_text)])).
Proof.
  apply (generate_recovers_after_one_failure (MoreExamples.E_flaky (lit "Report")) _ _ _ _
           RequestsConnectionError (Examples.ok_response (lit "Report"))
           (Examples.body_with (lit "Report"))); reflexivity.
Defined.

(** ** Every run of rename_pdf *)

Lemma acquisition_events_are_quiet (tr : list event) :
  forallb acquisition_event tr = true ->
  List.filter is_post tr = [] /\ List.filter is_outcome tr = [].
Proof.
  induction tr as [|ev tr IH]; simpl; [split; reflexivity|].
  intros H. apply andb_true_iff in H as [Hev Htl]. destruct (IH Htl) as [-> ->].
  destruct ev as [| | | | | | |? []]; simpl in *; try discriminate; split; reflexivity.
Qed.

Lemma generation_events_are_no_outcome (tr : list event) :
  forallb generation_event tr = true -> List.filter is_outcome tr = [].
Proof.
  induction tr as [|ev tr IH]; simpl; [reflexivity|].
  intros H. apply andb_true_iff in H as [Hev Htl]. rewrite (IH Htl).
  destruct ev as [| | | | | | |? []]; simpl in *; try discriminate; reflexivity.
Qed.

Section EveryRun.
Variables (E : env) (pdf_path api_key model : list N).

Lemma rename_pdf_fs_cases (dry_run : bool) (w : world) :
  fs (snd (rename_pdf E pdf_path api_key dry_run model w)) = fs w \/
  exists new_title content,
    dry_run = false /\
    fs w !! pdf_path = Some content /\
    fs w !! new_path_of pdf_path new_title = None /\
    fst (rename_pdf E pdf_path api_key dry_run model w) = Ret tt /\
    fs (snd (rename_pdf E pdf_path api_key dry_run model w)) =
      <[new_path_of pdf_path new_title := content]> (delete pdf_path (fs w)).
Proof.
  destruct (rename_pdf E pdf_path api_key dry_run model w) as [r w'] eqn:Hr.
  cbn [fst snd]. revert Hr.
  unfold rename_pdf. unfold bind at 1.
  destruct (extract_text_from_first_page E pdf_path w) as [[pdf_text|e] w1] eqn:Hx;
    destruct (frame_result _ _ _ _ (frame_extract_text_from_first_page E pdf_path) Hx)
      as (F1 & _ & _); [|intros [= <- <-]; left; exact F1].
  destruct (is_empty pdf_text); [intros [= <- <-]; left; exact F1|].
  unfold bind at 1.
  destruct (generate_title_with_gemini E pdf_text api_key model w1) as [[title|e] w2] eqn:Hg;
    destruct (frame_result _ _ _ _ (frame_generate_title_with_gemini E pdf_text api_key model) Hg)
      as (F2 & _ & _); [|intros [= <- <-]; left; congruence].
  destruct (is_empty title); [intros [= <- <-]; left; simpl; congruence|].
  destruct dry_run; [intros [= <- <-]; left; simpl; congruence|].
  unfold bind, os_path_exists.
  destruct (fs w2 !! new_path_of pdf_path title) as [existing|] eqn:Hdst.
  - rewrite bool_decide_eq_true_2 by (eexists; reflexivity).
    intros [= <- <-]. left. simpl. congruence.
  - rewrite bool_decide_eq_false_2 by (intros [? ?]; discriminate).
    cbn [negb]. unfold os_rename.
    destruct (rename_refused E pdf_path (new_path_of pdf_path title)) as [refusal|];
      [intros [= <- <-]; left; simpl; congruence|].
    destruct (fs w2 !! pdf_path) as [content|] eqn:Hsrc;
      [|intros [= <- <-]; left; simpl; congruence].
    intros [= <- <-]. right. exists title, content. cbn [fst snd fs trace].
    rewrite F2, F1 in Hdst, Hsrc. rewrite F2, F1. repeat split; assumption.
Qed.

End EveryRun.

(** X19. rename_pdf never overwrites and never deletes: on every run, with
    any collaborators, the filesystem at the end is the one at the start, or
    the run is no dry run, it returns normally, the document existed, the
    destination did not, and the filesystem at the end is the one at the
    start with the document moved to the destination. *)
Theorem rename_pdf_moves_or_keeps (E : env) (pdf_path api_key model : list N)
    (dry_run : bool) (w : world) :
  fs (snd (rename_pdf E pdf_path api_key dry_run model w)) = fs w \/
  exists new_title content,
    dry_run = false /\
    fs w !! pdf_path = Some content /\
    fs w !! new_path_of pdf_path new_title = None /\
    fst (rename_pdf E pdf_path api_key dry_run model w) = Ret tt /\
    fs (snd (rename_pdf E pdf_path api_key dry_run model w)) =
      <[new_path_of pdf_path new_title := content]> (delete pdf_path (fs w)).
Proof. apply rename_pdf_fs_cases. Qed.

(** X20. No run of rename_pdf changes the number of files, and every
    content that a file had before the run is the content of a file after
    it. *)
Theorem rename_pdf_loses_no_file (E : env) (pdf_path api_key model : list N)
    (dry_run : bool) (w : world) :
  size (fs (snd (rename_pdf E pdf_path api_key dry_run model w))) = size (fs w) /\
  forall q c, fs w !! q = Some c ->
    exists q', fs (snd (rename_pdf E pdf_path api_key dry_run model w)) !! q' = Some c.
Proof.
  destruct (rename_pdf_fs_cases E pdf_path api_key model dry_run w)
    as [-> | (title & content & _ & Hsrc & Hdst & _ & ->)].
  - split; [reflexivity|]. intros q c Hq. exists q. exact Hq.
  - split.
    + rewrite map_size_insert_None.
      * pose proof (map_size_delete pdf_path (fs w)) as Hd. rewrite Hsrc in Hd.
        assert (size (fs w) <> 0%nat).
        { intros Hz. apply map_size_empty_inv in Hz. rewrite Hz in Hsrc.
          rewrite lookup_empty in Hsrc. discriminate. }
        simpl in Hd. lia.
      * rewrite lookup_delete_ne by (intros Heq; rewrite <- Heq in Hdst; congruence).
        exact Hdst.
    + intros q c Hq. destruct (decide (q = pdf_path)) as [-> | Hne].
      * exists (new_path_of pdf_path title). rewrite lookup_insert_eq. congruence.
      * exists q. rewrite lookup_insert_ne by (intros <-; congruence).
        rewrite lookup_delete_ne by congruence. exact Hq.
Qed.

Lemma only_emits_result {A} (P : event -> bool) (m : M A) (w w' : world) (r : res A) :
  only_emits P m -> m w = (r, w') ->
  fs w' = fs w /\ exists tr, trace w' = trace w ++ tr /\ forallb P tr = true.
Proof.
  intros Hm Hr. destruct (Hm w) as [Hfs [tr [Htr Hall]]]. rewrite Hr in Hfs, Htr.
  split; [exact Hfs|]. exists tr. split; assumption.
Qed.

(** X21. When the text acquisition returns the empty text, rename_pdf logs
    that no text was extracted and returns: no request is sent to the
    service and the files stay as they are, dry run or not. *)
Theorem no_text_sends_no_request (E : env) (pdf_path api_key model : list N)
    (dry_run : bool) (w w1 : world) :
  extract_text_from_first_page E pdf_path w = (Ret [], w1) ->
  rename_pdf E pdf_path api_key dry_run model w =
    (Ret tt, World (fs w) (trace w1 ++ [EvLog WARNING NoTextExtracted])) /\
  posts_so_far (snd (rename_pdf E pdf_path api_key dry_run model w)) = posts_so_far w.
Proof.
  intros Hx.
  destruct (only_emits_result _ _ _ _ _ (only_emits_extract E pdf_path) Hx)
    as (F1 & tr & Htr & Hall).
  destruct (acquisition_events_are_quiet tr Hall) as [Hposts _].
  assert (Hr : rename_pdf E pdf_path api_key dry_run model w =
    (Ret tt, World (fs w) (trace w1 ++ [EvLog WARNING NoTextExtracted]))).
  { unfold rename_pdf. unfold bind at 1. rewrite Hx. cbn [is_empty].
    unfold log, emit. rewrite F1. reflexivity. }
  split; [exact Hr|]. rewrite Hr. unfold posts_so_far. cbn [snd trace].
  rewrite Htr, !List.filter_app, Hposts. simpl. rewrite !app_nil_r. reflexivity.
Qed.

Lemma no_text_sends_no_request_witness :
  rename_pdf MoreExamples.E_blank Examples.doc_path Examples.api_key false Examples.model
    Examples.w_docs =
    (Ret tt,
     World (fs Examples.w_docs)
       (trace (World (fs Examples.w_docs)
          [EvPdftotext Examples.doc_path; EvLog INFO FallbackToOcr;
           EvMkdtemp Examples.temp_dir; EvOcr Examples.doc_path Examples.temp_pdf;
           EvPdftotext Examples.temp_pdf; EvRmtree Examples.temp_dir])
        ++ [EvLog WARNING NoTextExtracted])) /\
  posts_so_far (snd (rename_pdf MoreExamples.E_blank Examples.doc_path Examples.api_key false
                       Examples.model Examples.w_docs)) = posts_so_far Examples.w_docs.
Proof.
  apply (no_text_sends_no_request MoreExamples.E_blank). vm_compute. reflexivity.
Defined.

(** X22. When the generator returns the empty title, rename_pdf logs that
    no title was generated for the document and returns: the sanitizer and
    [os.rename] are not reached and the files stay as they are, dry run or
    not. *)
Theorem empty_title_is_skipped (E : env) (pdf_path api_key model : list N)
    (dry_run : bool) (w w1 w2 : world) (pdf_text : list N) :
  extract_text_from_first_page E pdf_path w = (Ret pdf_text, w1) -> pdf_text <> [] ->
  generate_title_with_gemini E pdf_text api_key model w1 = (Ret [], w2) ->
  rename_pdf E pdf_path api_key dry_run model w =
    (Ret tt, World (fs w) (trace w2 ++ [EvLog WARNING (NoTitleGenerated pdf_path)])).
Proof.
  intros Hx Hne Hg.
  destruct (stage_frame E pdf_path api_key model w w1 w2 pdf_text [] Hx Hg) as [F _].
  unfold rename_pdf. unfold bind at 1. rewrite Hx.
  destruct pdf_text as [|c t]; [contradiction|]. cbn [is_empty].
  unfold bind at 1. rewrite Hg. cbn [is_empty]. unfold log, emit. rewrite F. reflexivity.
Qed.

Lemma empty_title_is_skipped_witness :
  rename_pdf (Examples.E_title (lit "  ")) Examples.doc_path Examples.api_key false
    Examples.model Examples.w_docs =
    (Ret tt,
     World (fs Examples.w_docs)
       (trace (Examples.after_generate Examples.doc_path Examples.w_docs) ++
        [EvLog WARNING (NoTitleGenerated Examples.doc_path)])).
Proof.
  apply (empty_title_is_skipped (Examples.E_title (lit "  ")) Examples.doc_path
           Examples.api_key Examples.model false Examples.w_docs
           (Examples.after_extract Examples.doc_path Examples.w_docs)
           (Examples.after_generate Examples.doc_path Examples.w_docs)
           Examples.page_text).
  - reflexivity.
  - discriminate.
  - vm_compute. reflexivity.
Defined.

(** X23. When a text and a title are there, the run is no dry run, the
    document exists, the destination does not and the operating system does
    not refuse the rename, rename_pdf returns after logging the new path;
    afterwards the destination holds the content the document had, nothing
    is left under the old path, and every other path is as before. *)
Theorem rename_moves_the_document (E : env) (pdf_path api_key model : list N)
    (w w1 w2 : world) (pdf_text new_title content : list N) :
  extract_text_from_first_page E pdf_path w = (Ret pdf_text, w1) -> pdf_text <> [] ->
  generate_title_with_gemini E pdf_text api_key model w1 = (Ret new_title, w2) ->
  new_title <> [] ->
  fs w !! pdf_path = Some content ->
  fs w !! new_path_of pdf_path new_title = None ->
  rename_refused E pdf_path (new_path_of pdf_path new_title) = None ->
  fst (rename_pdf E pdf_path api_key false model w) = Ret tt /\
  trace (snd (rename_pdf E pdf_path api_key false model w)) =
    trace w2 ++ [EvRename pdf_path (new_path_of pdf_path new_title);
                 EvLog INFO (RenamedTo (new_path_of pdf_path new_title))] /\
  fs (snd (rename_pdf E pdf_path api_key false model w)) !! new_path_of pdf_path new_title
    = Some content /\
  fs (snd (rename_pdf E pdf_path api_key false model w)) !! pdf_path = None /\
  forall q, q <> pdf_path -> q <> new_path_of pdf_path new_title ->
    fs (snd (rename_pdf E pdf_path api_key false model w)) !! q = fs w !! q.
Proof.
  intros Hx Hne Hg Hnt Hsrc Hdst Hok.
  rewrite (rename_pdf_renames E pdf_path api_key model w w1 w2 pdf_text new_title content)
    by assumption.
  cbn [fst snd fs trace].
  assert (Hdiff : new_path_of pdf_path new_title <> pdf_path) by congruence.
  split; [reflexivity|]. split; [reflexivity|]. split; [apply lookup_insert_eq|]. split.
  - rewrite lookup_insert_ne by exact Hdiff. apply lookup_delete_eq.
  - intros q Hq1 Hq2. rewrite lookup_insert_ne by congruence.
    apply lookup_delete_ne. congruence.
Qed.

Lemma rename_moves_the_document_witness :
  fst (rename_pdf (Examples.E_title (lit "Report")) Examples.doc_path Examples.api_key false
         Examples.model Examples.w_docs) = Ret tt /\
  trace (snd (rename_pdf (Examples.E_title (lit "Report")) Examples.doc_path Examples.api_key
                false Examples.model Examples.w_docs)) =
    trace (Examples.after_generate Examples.doc_path Examples.w_docs) ++
    [EvRename Examples.doc_path (new_path_of Examples.doc_path (lit "Report"));
     EvLog INFO (RenamedTo (new_path_of Examples.doc_path (lit "Report")))] /\
  fs (snd (rename_pdf (Examples.E_title (lit "Report")) Examples.doc_path Examples.api_key
             false Examples.model Examples.w_docs))
    !! new_path_of Examples.doc_path (lit "Report") = Some (lit "%PDF-1.7") /\
  fs (snd (rename_pdf (Examples.E_title (lit "Report")) Examples.doc_path Examples.api_key
             false Examples.model Examples.w_docs)) !! Examples.doc_path = None /\
  forall q, q <> Examples.doc_path -> q <> new_path_of Examples.doc_path (lit "Report") ->
    fs (snd (rename_pdf (Examples.E_title (lit "Report")) Examples.doc_path Examples.api_key
               false Examples.model Examples.w_docs)) !! q = fs Examples.w_docs !! q.
Proof.
  apply (rename_moves_the_document (Examples.E_title (lit "Report")) Examples.doc_path
           Examples.api_key Examples.model Examples.w_docs
           (Examples.after_extract Examples.doc_path Examples.w_docs)
           (Examples.after_generate Examples.doc_path Examples.w_docs)
           Examples.page_text (lit "Report") (lit "%PDF-1.7")).
  - reflexivity.
  - discriminate.
  - vm_compute. reflexivity.
  - discriminate.
  - vm_compute. reflexivity.
  - vm_compute. reflexivity.
  - reflexivity.
Defined.

(** X24. A dry run never changes the files, whatever the collaborators do:
    the filesystem at the end of rename_pdf is the one at the start, and no
    call of [os.rename] and no record of a rename is added to the trace. *)
Theorem dry_run_never_mutates (E : env) (pdf_path api_key model : list N) (w : world) :
  fs (snd (rename_pdf E pdf_path api_key true model w)) = fs w /\
  List.filter is_mutation (trace (snd (rename_pdf E pdf_path api_key true model w))) =
    List.filter is_mutation (trace w).
Proof.
  assert (Hf : frame (rename_pdf E pdf_path api_key true model)).
  { unfold rename_pdf.
    apply frame_bind; [apply frame_extract_text_from_first_page | intros pdf_text].
    destruct (is_empty pdf_text); [apply frame_emit; reflexivity|].
    apply frame_bind; [apply frame_generate_title_with_gemini | intros title].
    destruct (is_empty title); apply frame_emit; reflexivity. }
  destruct (rename_pdf E pdf_path api_key true model w) as [r w'] eqn:Hr.
  destruct (frame_result _ _ _ _ Hf Hr) as (F & Mu & _). split; assumption.
Qed.

(** X25. rename_pdf has no handler: when the text is there and the generator
    raises, the exception leaves rename_pdf as it is, dry run or not, with
    the files as they were and nothing logged by rename_pdf. *)
Theorem generator_exception_leaves_rename_pdf (E : env) (pdf_path api_key model : list N)
    (dry_run : bool) (w w1 w2 : world) (pdf_text : list N) (e : exn) :
  extract_text_from_first_page E pdf_path w = (Ret pdf_text, w1) -> pdf_text <> [] ->
  generate_title_with_gemini E pdf_text api_key model w1 = (Raise e, w2) ->
  rename_pdf E pdf_path api_key dry_run model w = (Raise e, w2) /\ fs w2 = fs w.
Proof.
  intros Hx Hne Hg. split.
  - unfold rename_pdf. unfold bind at 1. rewrite Hx.
    destruct pdf_text as [|c t]; [contradiction|]. cbn [is_empty].
    unfold bind at 1. rewrite Hg. reflexivity.
  - destruct (frame_result _ _ _ _ (frame_extract_text_from_first_page E pdf_path) Hx)
      as (F1 & _ & _).
    destruct (frame_result _ _ _ _ (frame_generate_title_with_gemini E pdf_text api_key model) Hg)
      as (F2 & _ & _).
    congruence.
Qed.

Lemma generator_exception_leaves_rename_pdf_witness :
  rename_pdf Examples.E_down Examples.doc_path Examples.api_key false Examples.model
    Examples.w_docs =
    (Raise RetryError,
     World (fs Examples.w_docs)
       [EvPdftotext Examples.doc_path; Examples.request; EvSleep 4; Examples.request;
        EvSleep 4; Examples.request]) /\
  fs (World (fs Examples.w_docs)
       [EvPdftotext Examples.doc_path; Examples.request; EvSleep 4; Examples.request;
        EvSleep 4; Examples.request]) = fs Examples.w_docs.
Proof.
  apply (generator_exception_leaves_rename_pdf Examples.E_down Examples.doc_path
           Examples.api_key Examples.model false Examples.w_docs
           (Examples.after_extract Examples.doc_path Examples.w_docs) _
           Examples.page_text RetryError).
  - reflexivity.
  - discriminate.
  - vm_compute. reflexivity.
Defined.

(** X26. A run of rename_pdf that returns normally has logged exactly one of
    the five records of an outcome (no text, no title, dry run, renamed,
    already exists), as the last event of the run; a run that raises has
    logged none of them. *)
Theorem rename_pdf_logs_one_outcome (E : env) (pdf_path api_key model : list N)
    (dry_run : bool) (w : world) :
  exists tr,
    trace (snd (rename_pdf E pdf_path api_key dry_run model w)) = trace w ++ tr /\
    match fst (rename_pdf E pdf_path api_key dry_run model w) with
    | Ret _ =>
        exists tr0 lvl r,
          tr = tr0 ++ [EvLog lvl r] /\ outcome_log r = true /\
          List.filter is_outcome tr0 = []
    | Raise _ => List.filter is_outcome tr = []
    end.
Proof.
  destruct (rename_pdf E pdf_path api_key dry_run model w) as [r w'] eqn:Hr.
  cbn [fst snd]. revert Hr.
  unfold rename_pdf. unfold bind at 1.
  destruct (extract_text_from_first_page E pdf_path w) as [[pdf_text|e] w1] eqn:Hx;
    destruct (only_emits_result _ _ _ _ _ (only_emits_extract E pdf_path) Hx)
      as (_ & tr1 & Htr1 & Hall1);
    destruct (acquisition_events_are_quiet tr1 Hall1) as [_ Q1].
  2:{ intros [= <- <-]. exists tr1. split; assumption. }
  destruct (is_empty pdf_text).
  { intros [= <- <-]. exists (tr1 ++ [EvLog WARNING NoTextExtracted]). cbn [trace].
    rewrite Htr1, <- app_assoc. split; [reflexivity|].
    exists tr1, WARNING, NoTextExtracted. repeat split; assumption. }
  unfold bind at 1.
  destruct (generate_title_with_gemini E pdf_text api_key model w1) as [[title|e] w2] eqn:Hg;
    destruct (only_emits_result _ _ _ _ _ (only_emits_generate E pdf_text api_key model) Hg)
      as (_ & tr2 & Htr2 & Hall2);
    pose proof (generation_events_are_no_outcome tr2 Hall2) as Q2.
  2:{ intros [= <- <-]. exists (tr1 ++ tr2). rewrite Htr2, Htr1, <- app_assoc.
      split; [reflexivity|]. rewrite List.filter_app, Q1, Q2. reflexivity. }
  assert (Q12 : List.filter is_outcome (tr1 ++ tr2) = [])
    by (rewrite List.filter_app, Q1, Q2; reflexivity).
  assert (Hlog : forall lvl rec,
    outcome_log rec = true ->
    exists tr,
      trace w2 ++ [EvLog lvl rec] = trace w ++ tr /\
      exists tr0 lvl0 r0,
        tr = tr0 ++ [EvLog lvl0 r0] /\ outcome_log r0 = true /\
        List.filter is_outcome tr0 = []).
  { intros lvl rec Hrec. exists ((tr1 ++ tr2) ++ [EvLog lvl rec]).
    rewrite Htr2, Htr1, <- !app_assoc. split; [reflexivity|].
    exists (tr1 ++ tr2), lvl, rec. rewrite <- !app_assoc. repeat split; assumption. }
  destruct (is_empty title); [intros [= <- <-]; apply Hlog; reflexivity|].
  destruct dry_run; [intros [= <- <-]; apply Hlog; reflexivity|].
  unfold bind, os_path_exists.
  destruct (negb _); [|intros [= <- <-]; apply Hlog; reflexivity].
  unfold os_rename.
  destruct (rename_refused E pdf_path (new_path_of pdf_path title)) as [refusal|].
  { intros [= <- <-]; cbn [trace].
    exists (tr1 ++ tr2 ++ [EvRename pdf_path (new_path_of pdf_path title)]).
    rewrite Htr2, Htr1, <- !app_assoc. split; [reflexivity|].
    rewrite !List.filter_app, Q1, Q2. reflexivity. }
  destruct (fs w2 !! pdf_path) as [content|]; intros [= <- <-]; cbn [trace].
  - exists ((tr1 ++ tr2 ++ [EvRename pdf_path (new_path_of pdf_path title)]) ++
            [EvLog INFO (RenamedTo (new_path_of pdf_path title))]).
    rewrite Htr2, Htr1, <- !app_assoc. split; [reflexivity|].
    exists (tr1 ++ tr2 ++ [EvRename pdf_path (new_path_of pdf_path title)]), INFO,
      (RenamedTo (new_path_of pdf_path title)).
    split; [repeat rewrite <- app_assoc; reflexivity|]. split; [reflexivity|].
    rewrite !List.filter_app, Q1, Q2. reflexivity.
  - exists (tr1 ++ tr2 ++ [EvRename pdf_path (new_path_of pdf_path title)]).
    rewrite Htr2, Htr1, <- !app_assoc. split; [reflexivity|].
    rewrite !List.filter_app, Q1, Q2. reflexivity.
Qed.

(** A rename that the operating system refuses: the exception leaves
    rename_pdf, the files stay as they are and no rename is reported. *)
Example run_refused :
  rename_pdf MoreExamples.E_read_only Examples.doc_path Examples.api_key false Examples.model
    Examples.w_docs =
  (Raise OSError,
   World (fs Examples.w_docs)
     [EvPdftotext Examples.doc_path; Examples.request;
      EvRename Examples.doc_path (lit "/docs/Report.pdf")]).
Proof. vm_compute. reflexivity. Qed.

(** A second run of pdftotext that times out: the exception that leaves the
    text acquisition is the [AttributeError] of line 55. *)
Example run_second_timeout :
  fst (extract_text_from_first_page
         (Env (fun path => if bool_decide (path = Examples.temp_pdf) then Raise TimeoutExpired
                           else Ret (Completed 0 [] []))
              Examples.temp_dir (fun _ => Ret tt)
              (fun _ _ _ _ => Ret (Examples.ok_response (lit "Report"))) Examples.accepts)
         Examples.doc_path Examples.w_docs) = Raise AttributeError.
Proof. vm_compute. reflexivity. Qed.
